(** * skimage.io._plugins.pil_plugin: conversions between PIL images and
    ndarrays

    A shallow embedding of [src/skimage/io/_plugins/pil_plugin.py].

    The module talks to three neighbours: numpy (arrays), PIL (tagged
    images) and [skimage.util] (the [img_as_*] range conversions).  The
    parts of numpy and PIL that the module calls are modelled concretely,
    at the level of shapes, element types and raw bytes, on a
    little-endian host.  The [img_as_*] functions, PIL's pixel
    conversion [Image.convert], numpy's floating-point casts and the
    outcome of PIL's encoder in [Image.save] are kept abstract in the
    class [Collaborators].

    Python exceptions are values of [exn]; a computation that may raise
    returns a [result]; a computation that also touches file handles or
    the codec runs in the monad [IO] over [world]. *)

From Stdlib Require Import ZArith Lia Strings.Byte Ascii String QArith Qabs DecimalString.
From stdpp Require Import gmap strings list.

Local Open Scope nat_scope.

(** ** Exceptions and results *)

Inductive exn : Type :=
| ValueError (msg : string)
| TypeError (msg : string)
| IOError (msg : string)
| KeyError (msg : string)
| IndexError (msg : string)
| AssertionError.

Inductive result (A : Type) : Type :=
| Ok (a : A)
| Raise (e : exn).
Arguments Ok {A} a.
Arguments Raise {A} e.

#[global] Instance result_ret : MRet result := fun A a => Ok a.
#[global] Instance result_bind : MBind result := fun A B f m =>
  match m with
  | Ok a => f a
  | Raise e => Raise e
  end.

(** ** Python strings *)

Module Str.

Fixpoint startswith (s p : string) : bool :=
  match p, s with
  | EmptyString, _ => true
  | String c p', String d s' => if Ascii.eqb c d then startswith s' p' else false
  | String _ _, EmptyString => false
  end.

Definition endswith (s p : string) : bool :=
  startswith (String.rev s) (String.rev p).

(** [c in s] for a one-character string [c]. *)
Fixpoint contains_char (c : ascii) (s : string) : bool :=
  match s with
  | EmptyString => false
  | String d s' => if Ascii.eqb c d then true else contains_char c s'
  end.

(** [str(n)] for a non-negative integer. *)
Definition of_nat (n : nat) : string :=
  NilEmpty.string_of_uint (Nat.to_uint n).

Definition newline : string := String (ascii_of_nat 10) EmptyString.

Definition dquote : string := String (ascii_of_nat 34) EmptyString.

(** The [%] operator for a format string that ends in its only [%s],
    applied to a tuple: the tuple is the argument list, so it must
    have exactly one item. *)
Definition percent_s (prefix : string) (args : list string) : result string :=
  match args with
  | [a] => Ok (prefix +:+ a)
  | [] => Raise (TypeError "not enough arguments for format string")
  | _ :: _ :: _ =>
      Raise (TypeError "not all arguments converted during string formatting")
  end.

End Str.

(** ** Raw bytes *)

Module Bytes.

Definition byte_of_Z (z : Z) : byte :=
  match Byte.of_N (Z.to_N (z mod 256)) with
  | Some b => b
  | None => x00
  end.

Definition Z_of_byte (b : byte) : Z := Z.of_N (Byte.to_N b).

(** Little-endian bytes of the low [8 * n] bits of [z] (two's
    complement for negative [z]). *)
Fixpoint le_of_Z (n : nat) (z : Z) : list byte :=
  match n with
  | O => []
  | S n' => byte_of_Z z :: le_of_Z n' (z / 256)
  end.

Fixpoint Z_of_le (bs : list byte) : Z :=
  match bs with
  | [] => 0%Z
  | b :: bs' => (Z_of_byte b + 256 * Z_of_le bs')%Z
  end.

(** The first [count] consecutive pieces of [n] bytes. *)
Fixpoint chunks {A} (count n : nat) (l : list A) : list (list A) :=
  match count with
  | O => []
  | S c => take n l :: chunks c n (drop n l)
  end.

End Bytes.

(** ** numpy: the part of the array model the plugin uses *)

Module np.

(** [dtype.kind]: 'b', 'i', 'u', 'f'. *)
Inductive dkind : Type := kind_b | kind_i | kind_u | kind_f.

#[global] Instance dkind_eq_dec : EqDecision dkind.
Proof. solve_decision. Defined.

Inductive endian : Type := LittleEndian | BigEndian.

Record dtype_t : Type := Dtype
  { kind : dkind; itemsize : nat; byteorder : endian }.

(** The host is little-endian: native dtypes carry [LittleEndian]. *)
Definition bool_ : dtype_t := Dtype kind_b 1 LittleEndian.
Definition uint8 : dtype_t := Dtype kind_u 1 LittleEndian.
Definition uint16 : dtype_t := Dtype kind_u 2 LittleEndian.
Definition int16 : dtype_t := Dtype kind_i 2 LittleEndian.
Definition int32 : dtype_t := Dtype kind_i 4 LittleEndian.
Definition int64 : dtype_t := Dtype kind_i 8 LittleEndian.
Definition float32 : dtype_t := Dtype kind_f 4 LittleEndian.
Definition float64 : dtype_t := Dtype kind_f 8 LittleEndian.
(** ['<u2'] and ['>u2']. *)
Definition u2_le : dtype_t := Dtype kind_u 2 LittleEndian.
Definition u2_be : dtype_t := Dtype kind_u 2 BigEndian.

(** A C-contiguous array.  [data] lists the elements in row-major
    order: the integer value for the kinds 'b', 'i' and 'u', and the
    IEEE-754 bit pattern (as an unsigned integer) for kind 'f', which
    this module never interprets. *)
Record ndarray : Type := Array
  { shape : list nat; dtype : dtype_t; data : list Z }.

Definition ndim (a : ndarray) : nat := length (shape a).

Definition prod (s : list nat) : nat := foldr Nat.mul 1 s.

(** [a.squeeze()]: every axis of length one is dropped. *)
Definition squeeze (a : ndarray) : ndarray :=
  Array (filter (fun n => n ≠ 1) (shape a)) (dtype a) (data a).

(** [a.T.shape]. *)
Definition T_shape (a : ndarray) : list nat := reverse (shape a).

(** [a.max()] and [a.min()] raise on an array with no element. *)
Definition max (a : ndarray) : result Z :=
  match data a with
  | [] => Raise (ValueError
      "zero-size array to reduction operation maximum which has no identity")
  | x :: xs => Ok (foldl Z.max x xs)
  end.

Definition min (a : ndarray) : result Z :=
  match data a with
  | [] => Raise (ValueError
      "zero-size array to reduction operation minimum which has no identity")
  | x :: xs => Ok (foldl Z.min x xs)
  end.

(** The value an integer [z] takes when stored with dtype [d] (a C
    cast: wrap-around). *)
Definition wrap (d : dtype_t) (z : Z) : Z :=
  let m := (2 ^ (8 * Z.of_nat (itemsize d)))%Z in
  match kind d with
  | kind_b => if (z =? 0)%Z then 0%Z else 1%Z
  | kind_u => (z mod m)%Z
  | kind_i => ((z + m / 2) mod m - m / 2)%Z
  | kind_f => z
  end.

(** Bytes of one element, and back. *)
Definition encode (d : dtype_t) (z : Z) : list byte :=
  let le := Bytes.le_of_Z (itemsize d) z in
  match byteorder d with
  | LittleEndian => le
  | BigEndian => reverse le
  end.

Definition decode (d : dtype_t) (bs : list byte) : Z :=
  let u := Bytes.Z_of_le
             match byteorder d with
             | LittleEndian => bs
             | BigEndian => reverse bs
             end in
  let m := (2 ^ (8 * Z.of_nat (itemsize d)))%Z in
  match kind d with
  | kind_b => if (u =? 0)%Z then 0%Z else 1%Z
  | kind_i => if (m / 2 <=? u)%Z then (u - m)%Z else u
  | kind_u | kind_f => u
  end.

(** [a.tostring()]: the raw bytes in C order. *)
Definition tostring (a : ndarray) : list byte :=
  concat (map (encode (dtype a)) (data a)).

(** [np.fromstring(s, dtype)]: a 1-D array over the bytes of [s]. *)
Definition fromstring (s : list byte) (d : dtype_t) : result ndarray :=
  if decide (itemsize d = 0) then
    Raise (ValueError "zero-valued itemsize")
  else if decide (length s `mod` itemsize d = 0) then
    let n := length s `div` itemsize d in
    Ok (Array [n] d (map (decode d) (Bytes.chunks n (itemsize d) s)))
  else
    Raise (ValueError "string size must be a multiple of element size").

(** The array a buffer of bytes denotes under a shape and a dtype, as
    [np.array] builds it from an [__array_interface__]. *)
Definition frombuffer (s : list nat) (d : dtype_t) (buf : list byte)
  : result ndarray :=
  if decide (prod s * itemsize d ≤ length buf) then
    Ok (Array s d (map (decode d) (Bytes.chunks (prod s) (itemsize d) buf)))
  else
    Raise (TypeError "buffer is too small for requested array").

(** [a.shape = s]. *)
Definition set_shape (a : ndarray) (s : list nat) : result ndarray :=
  if decide (prod s = length (data a)) then Ok (Array s (dtype a) (data a))
  else Raise (ValueError "total size of new array must be unchanged").

(** [np.asarray(l)] for a list of Python ints. *)
Definition asarray (l : list Z) : ndarray := Array [length l] int64 l.

(** [a.reshape(s)]. *)
Definition reshape (a : ndarray) (s : list nat) : result ndarray :=
  if decide (prod s = length (data a)) then Ok (Array s (dtype a) (data a))
  else Raise (ValueError "total size of new array must be unchanged").

(** [a[start:stop]] for non-negative bounds: a slice of the first
    axis, with both bounds clipped to its length. *)
Definition slice (a : ndarray) (start stop : nat) : result ndarray :=
  match shape a with
  | [] => Raise (IndexError "too many indices for array")
  | n :: rest =>
      let lo := start `min` n in
      let hi := stop `min` n in
      let k := prod rest in
      Ok (Array ((hi - lo) :: rest) (dtype a)
            (take ((hi - lo) * k) (drop (lo * k) (data a))))
  end.

(** First differences of one row. *)
Fixpoint diff_row (l : list Z) : list Z :=
  match l with
  | a :: (b :: _) as t => (b - a)%Z :: diff_row t
  | _ => []
  end.

(** [np.diff(a)]: first differences along the last axis. *)
Definition diff (a : ndarray) : result ndarray :=
  match reverse (shape a) with
  | [] => Raise (ValueError "diff requires input that is at least one dimensional")
  | m :: outer =>
      let rows := Bytes.chunks (prod outer) m (data a) in
      Ok (Array (reverse ((m - 1) :: outer)) (dtype a)
            (concat (map diff_row rows)))
  end.

(** [np.allclose(a, 0)] on an integer array:
    [|x - 0| <= atol + rtol * |0|] for every element, with the default
    [atol = 1e-8] and [rtol = 1e-5].  On integers the comparison is
    exact, so it is evaluated over the rationals. *)
Definition atol : Q := 1 # 100000000.
Definition rtol : Q := 1 # 100000.

Definition isclose0 (x : Z) : bool :=
  Qle_bool (Qabs (inject_Z x - 0)) (atol + rtol * Qabs 0).

Definition allclose0 (a : ndarray) : bool := forallb isclose0 (data a).

End np.

(** ** PIL: tagged images, the codec and file handles *)

Module PIL.

Definition handle : Type := nat.

(** A PIL image as the plugin sees it.
    - [size] is [(width, height)];
    - [pixels] is what [load()] brings into memory: the raw buffer in
      the image's own mode (the bytes [tostring()] returns), or the
      exception the decoder raises for an unreadable file;
    - [palette] and [extrema] are what [im.getpalette()] and
      [im.getextrema()] return;
    - [fp] is [None] when the object has no attribute [fp],
      [Some None] when [im.fp] is [None], and [Some (Some h)] when it
      is the file object [h]. *)
Record Image : Type := MkImage
  { mode : string;
    size : nat * nat;
    pixels : result (list byte);
    palette : option (list Z);
    extrema : nat * nat;
    fp : option (option handle) }.

Definition load (im : Image) : result unit :=
  match pixels im with
  | Ok _ => Ok tt
  | Raise e => Raise e
  end.

Definition tostring (im : Image) : result (list byte) := pixels im.

Definition getdata (im : Image) : result (list byte) := pixels im.

(** [seq[0]]. *)
Definition item0 {A} (l : list A) : result A :=
  match l with
  | x :: _ => Ok x
  | [] => Raise (IndexError "image index out of range")
  end.

Definition getpalette (im : Image) : result (option (list Z)) :=
  _ ← load im; Ok (palette im).

Definition getextrema (im : Image) : result (nat * nat) :=
  _ ← load im; Ok (extrema im).

(** Bytes per pixel of the raw buffer of an image mode. *)
Definition pixel_bytes (m : string) : option nat :=
  if (m =? "L")%string then Some 1
  else if (m =? "P")%string then Some 1
  else if (m =? "I")%string then Some 4
  else if (m =? "F")%string then Some 4
  else if (m =? "RGB")%string then Some 3
  else if (m =? "RGBA")%string then Some 4
  else None.

(** [Image.new(mode, size)]: a zero-filled image without a file.  The
    size has to be a pair. *)
Definition new (m : string) (sz : list nat) : result Image :=
  match sz with
  | [w; h] =>
      match pixel_bytes m with
      | Some k =>
          Ok (MkImage m (w, h) (Ok (replicate (w * h * k) x00)) None (0, 0) None)
      | None => Raise (ValueError "unrecognized mode")
      end
  | _ => Raise (TypeError "must be 2-item sequence")
  end.

(** The raw decoder's unpackers: for an image mode and a raw mode, the
    bytes one pixel takes in the input and how they become the pixel's
    bytes in the image.  ['I;16'] is unsigned little-endian 16-bit,
    ['I;16B'] big-endian; an ['I'] pixel is a native 32-bit integer. *)
Definition unpacker (m rawmode : string)
  : option (nat * (list byte → list byte)) :=
  if ((m =? "L") && (rawmode =? "L"))%string then Some (1, id)
  else if ((m =? "P") && (rawmode =? "P"))%string then Some (1, id)
  else if ((m =? "I") && (rawmode =? "I"))%string then Some (4, id)
  else if ((m =? "F") && (rawmode =? "F"))%string then Some (4, id)
  else if ((m =? "I") && (rawmode =? "I;16"))%string then
    Some (2, fun c => Bytes.le_of_Z 4 (Bytes.Z_of_le c))
  else if ((m =? "I") && (rawmode =? "I;16B"))%string then
    Some (2, fun c => Bytes.le_of_Z 4 (Bytes.Z_of_le (reverse c)))
  else if ((m =? "RGB") && (rawmode =? "RGB"))%string then Some (3, id)
  else if ((m =? "RGBA") && (rawmode =? "RGBA"))%string then Some (4, id)
  else None.

(** [im.fromstring(data, decoder_name, rawmode)]: the image with its
    buffer loaded from [data]. *)
Definition fromstring (im : Image) (s : list byte)
    (decoder_name rawmode : string) : result Image :=
  if negb (decoder_name =? "raw")%string then
    Raise (IOError "decoder not available")
  else
    match unpacker (mode im) rawmode with
    | None => Raise (ValueError "unknown raw mode")
    | Some (k, unpack) =>
        let n := fst (size im) * snd (size im) in
        if decide (n * k ≤ length s) then
          Ok (MkImage (mode im) (size im)
                (Ok (concat (map unpack (Bytes.chunks n k s))))
                (palette im) (extrema im) (fp im))
        else Raise (ValueError "not enough image data")
    end.

(** [_MODE_CONV]: element type and extra axis of the array interface. *)
Definition _MODE_CONV (m : string) : option (np.dtype_t * option nat) :=
  if (m =? "1")%string then Some (np.bool_, None)
  else if (m =? "L")%string then Some (np.uint8, None)
  else if (m =? "I")%string then Some (np.int32, None)
  else if (m =? "F")%string then Some (np.float32, None)
  else if (m =? "P")%string then Some (np.uint8, None)
  else if (m =? "RGB")%string then Some (np.uint8, Some 3)
  else if (m =? "RGBX")%string then Some (np.uint8, Some 4)
  else if (m =? "RGBA")%string then Some (np.uint8, Some 4)
  else if (m =? "CMYK")%string then Some (np.uint8, Some 4)
  else if (m =? "YCbCr")%string then Some (np.uint8, Some 3)
  else None.

Definition _conv_type_shape (im : Image) : result (list nat * np.dtype_t) :=
  let '(w, h) := size im in
  match _MODE_CONV (mode im) with
  | None => Raise (KeyError (mode im))
  | Some (typ, None) => Ok ([h; w], typ)
  | Some (typ, Some extra) => Ok ([h; w; extra], typ)
  end.

(** [im.__array_interface__]: shape, typestr and data. *)
Definition array_interface (im : Image)
  : result (list nat * np.dtype_t * list byte) :=
  '(s, typ) ← _conv_type_shape im;
  buf ← tostring im;
  Ok (s, typ, buf).

(** *** The world outside: files, open handles and the codec's
    [save] *)

Inductive dest : Type :=
| Path (name : string)
| FileObject (id : nat).

Record world : Type := World
  { files : gmap string Image;
    open_handles : gset handle;
    save_calls : list (dest * Image * option string) }.

Definition IO (A : Type) : Type := world → result A * world.

Definition ret {A} (a : A) : IO A := fun w => (Ok a, w).

Definition bind {A B} (m : IO A) (f : A → IO B) : IO B := fun w =>
  match m w with
  | (Ok a, w') => f a w'
  | (Raise e, w') => (Raise e, w')
  end.

#[global] Instance IO_ret : MRet IO := @ret.
#[global] Instance IO_bind : MBind IO := fun A B f m => bind m f.

Definition lift {A} (r : result A) : IO A := fun w => (r, w).

Definition raise {A} (e : exn) : IO A := fun w => (Raise e, w).

(** [try: body except IOError: handler else: orelse]. *)
Definition try_except_IOError_else {A B}
    (body : IO A) (handler : IO B) (orelse : IO B) : IO B := fun w =>
  match body w with
  | (Ok _, w') => orelse w'
  | (Raise (IOError _), w') => handler w'
  | (Raise e, w') => (Raise e, w')
  end.

(** [Image.open(fname)]: the image the file holds, with a fresh open
    handle as its [fp]; pixel data are not read yet. *)
Definition open (fname : string) : IO Image := fun w =>
  match files w !! fname with
  | None => (Raise (IOError "cannot identify image file"), w)
  | Some im =>
      let h := fresh (open_handles w) in
      (Ok (MkImage (mode im) (size im) (pixels im) (palette im)
             (extrema im) (Some (Some h))),
       World (files w) ({[h]} ∪ open_handles w) (save_calls w))
  end.

(** [fp.close()]. *)
Definition close (h : handle) : IO unit := fun w =>
  (Ok tt, World (files w) (open_handles w ∖ {[h]}) (save_calls w)).

(** [im.save(fname, format=format_str)]: the call is recorded and ends
    as the encoder decides, [outcome]: it returns, or raises for a mode
    it cannot write in the format, for a format it does not know or on
    an I/O error. *)
Definition save (outcome : result unit) (im : Image) (fname : dest)
    (format : option string) : IO unit := fun w =>
  (outcome, World (files w) (open_handles w)
              (save_calls w ++ [(fname, im, format)])).

End PIL.

(** ** Collaborators kept abstract *)

(** [skimage.util]'s range conversions, the pixel conversion behind
    PIL's [Image.convert] (on an image whose pixels are loaded), numpy's
    casts that involve a floating-point dtype, and the outcome of the
    encoder behind PIL's [Image.save]. *)
Class Collaborators : Type :=
  { img_as_ubyte : np.ndarray → result np.ndarray;
    img_as_uint : np.ndarray → result np.ndarray;
    img_as_int : np.ndarray → result np.ndarray;
    convert_pixels : PIL.Image → string → result PIL.Image;
    float_cast : np.dtype_t → np.dtype_t → Z → Z;
    save_outcome : PIL.Image → PIL.dest → option string → result unit }.

(** ** The plugin *)

Section Plugin.

Context `{Collaborators}.

(** [a.astype(d)]. *)
Definition np_astype (a : np.ndarray) (d : np.dtype_t) : np.ndarray :=
  let cast :=
    match np.kind (np.dtype a), np.kind d with
    | np.kind_f, _ | _, np.kind_f => float_cast (np.dtype a) d
    | _, _ => np.wrap d
    end in
  np.Array (np.shape a) d (map cast (np.data a)).

(** [np.array(x, dtype=dtype)] for [x] an array or a PIL image (read
    through its array interface). *)
Definition np_array (x : PIL.Image + np.ndarray) (dtype : option np.dtype_t)
  : result np.ndarray :=
  a ← match x with
      | inr a => Ok a
      | inl im =>
          '(s, typ, buf) ← PIL.array_interface im;
          np.frombuffer s typ buf
      end;
  Ok match dtype with
     | None => a
     | Some d => np_astype a d
     end.

(** [im.convert(mode)]: loads the pixels, then converts them. *)
Definition Image_convert (im : PIL.Image) (m : string) : result PIL.Image :=
  _ ← PIL.load im; convert_pixels im m.

Definition _palette_is_grayscale (pil_image : PIL.Image) : result bool :=
  if negb (PIL.mode pil_image =? "P")%string then Raise AssertionError
  else
    pal ← PIL.getpalette pil_image;
    palette ← match pal with
              | Some l => np.reshape (np.asarray l) [256; 3]
              | None =>
                  Raise (ValueError "total size of new array must be unchanged")
              end;
    '(start, stop) ← PIL.getextrema pil_image;
    valid_palette ← np.slice palette start stop;
    d ← np.diff valid_palette;
    Ok (np.allclose0 d).

Definition pil_to_ndarray (im : PIL.Image) (dtype : option np.dtype_t)
  : PIL.IO np.ndarray :=
  let fp := match PIL.fp im with Some f => f | None => None end in
  '(im, dtype) ←
    PIL.lift
      (if (PIL.mode im =? "P")%string then
         gray ← _palette_is_grayscale im;
         im' ← (if gray : bool then Image_convert im "L"
                else Image_convert im "RGB");
         Ok (inl im', dtype)
       else if (PIL.mode im =? "1")%string then
         im' ← Image_convert im "L";
         Ok (inl im', dtype)
       else if Str.startswith (PIL.mode im) "I;16" then
         let shape := PIL.size im in
         let dtype :=
           if Str.endswith (PIL.mode im) "B" then np.u2_be else np.u2_le in
         s ← PIL.tostring im;
         a ← np.fromstring s dtype;
         a ← np.set_shape a [snd shape; fst shape];
         Ok (inr a, Some dtype)
       else if Str.contains_char "A" (PIL.mode im) then
         im' ← Image_convert im "RGBA";
         Ok (inl im', dtype)
       else Ok (inl im, dtype));
  a ← PIL.lift (np_array im dtype);
  _ ← match fp with
      | Some h => PIL.close h
      | None => PIL.ret tt
      end;
  PIL.ret a.

Definition site : string :=
  "http://pillow.readthedocs.org/en/latest/installation.html#external-libraries".

Definition imread (fname : string) (dtype : option np.dtype_t)
  : PIL.IO np.ndarray :=
  im ← PIL.open fname;
  PIL.try_except_IOError_else
    (PIL.lift (d ← PIL.getdata im; PIL.item0 d))
    (PIL.raise
       (ValueError ("Could not load " +:+ Str.dquote +:+ fname +:+ Str.dquote
                    +:+ Str.newline +:+ "Please see documentation at: "
                    +:+ site)))
    (pil_to_ndarray im dtype).

Definition ndarray_to_pil (arr : np.ndarray) (format_str : option string)
  : result PIL.Image :=
  let arr := np.squeeze arr in
  _ ← (if negb (bool_decide (np.ndim arr ∈ [2; 3])) then
         msg ← Str.percent_s "Invalid shape for image array: "
                 (map Str.of_nat (np.shape arr));
         Raise (ValueError msg)
       else Ok tt);
  _ ← (if bool_decide (np.ndim arr = 3) then
         if negb (bool_decide (np.shape arr !!! 2 ∈ [3; 4])) then
           Raise (ValueError "Invalid number of channels in image array.")
         else Ok tt
       else Ok tt);
  let _ :=
    match format_str with
    | Some f =>
        if bool_decide (f ∈ ["tiff"; "tif"]%string) then tt (* pass *) else tt
    | None => tt
    end in
  '(arr, mode, mode_base) ←
    (if bool_decide (np.ndim arr = 3) then
       arr ← img_as_ubyte arr;
       mode ← match np.shape arr !! 2 with
              | None => Raise (IndexError "tuple index out of range")
              | Some 3 => Ok "RGB"%string
              | Some 4 => Ok "RGBA"%string
              | Some n => Raise (KeyError (Str.of_nat n))
              end;
       Ok (arr, mode, mode)
     else if bool_decide (np.kind (np.dtype arr) = np.kind_f) then
       arr ← img_as_uint arr;
       Ok (arr, "I;16"%string, "I"%string)
     else
       c8 ← (mx ← np.max arr;
             if (mx <? 256)%Z then mn ← np.min arr; Ok (0 <=? mn)%Z
             else Ok false);
       if c8 : bool then
         Ok (np_astype arr np.uint8, "L"%string, "L"%string)
       else
         c16 ← (mx ← np.max arr;
                if (mx <? 2 ^ 16)%Z then mn ← np.min arr; Ok (0 <=? mn)%Z
                else Ok false);
         if c16 : bool then
           Ok (np_astype arr np.uint16, "I;16"%string, "I"%string)
         else
           arr ← img_as_int arr;
           Ok (arr, "I"%string, "I"%string));
  im ← PIL.new mode_base (np.T_shape arr);
  PIL.fromstring im (np.tostring arr) "raw" mode.

(** [im.save(fname, format=format)]. *)
Definition Image_save (im : PIL.Image) (fname : PIL.dest)
    (format : option string) : PIL.IO unit :=
  PIL.save (save_outcome im fname format) im fname format.

Definition isinstance_string_types (fname : PIL.dest) : bool :=
  match fname with
  | PIL.Path _ => true
  | PIL.FileObject _ => false
  end.

Definition imsave (fname : PIL.dest) (arr : np.ndarray)
    (format_str : option string) : PIL.IO unit :=
  let format_str :=
    if negb (isinstance_string_types fname)
       && match format_str with None => true | Some _ => false end
    then Some "PNG"%string
    else format_str in
  img ← PIL.lift (ndarray_to_pil arr None);
  Image_save img fname format_str.

End Plugin.

(** ** A concrete set of collaborators

    Used to run the embedding on concrete inputs.  The range conversions
    return an array of the target element type filled with zeros, the
    pixel conversion re-tags the image, floating-point casts yield
    zero, and the encoder refuses to write an ['I'] image as JPEG and
    accepts everything else; what is checked on the concrete runs below
    does not depend on these values. *)

Definition zeros_like (d : np.dtype_t) (a : np.ndarray) : np.ndarray :=
  np.Array (np.shape a) d (map (fun _ => 0%Z) (np.data a)).

Definition sample_collaborators : Collaborators :=
  {| img_as_ubyte a := Ok (zeros_like np.uint8 a);
     img_as_uint a := Ok (zeros_like np.uint16 a);
     img_as_int a := Ok (zeros_like np.int16 a);
     convert_pixels im m :=
       Ok (PIL.MkImage m (PIL.size im) (PIL.pixels im) (PIL.palette im)
             (PIL.extrema im) (PIL.fp im));
     float_cast _ _ _ := 0%Z;
     save_outcome im _ format :=
       match format with
       | Some f =>
           if ((f =? "JPEG") && (PIL.mode im =? "I"))%string
           then Raise (IOError "cannot write mode I as JPEG")
           else Ok tt
       | None => Ok tt
       end |}.

Definition empty_world : PIL.world := PIL.World ∅ ∅ [].

Definition run_ndarray_to_pil := @ndarray_to_pil sample_collaborators.
Definition run_pil_to_ndarray := @pil_to_ndarray sample_collaborators.
Definition run_imread := @imread sample_collaborators.

(** ** Sample inputs *)

(** A 2x2 float64 array; every element is the bit pattern of 0.5. *)
Definition float_2x2 : np.ndarray :=
  np.Array [2; 2] np.float64 (replicate 4 4602678819172646912%Z).

(** One row of three float64 elements. *)
Definition float_1x3 : np.ndarray :=
  np.Array [1; 3] np.float64 (replicate 3 4602678819172646912%Z).

Definition small_2x3 : np.ndarray :=
  np.Array [2; 3] np.int64 [0; 1; 2; 100; 200; 255]%Z.

Definition wide_2x3 : np.ndarray :=
  np.Array [2; 3] np.int64 [256; 300; 1000; 40000; 65535; 256]%Z.

(** One row of three pixels. *)
Definition small_1x3 : np.ndarray := np.Array [1; 3] np.int64 [1; 2; 3]%Z.

Definition wide_1x3 : np.ndarray :=
  np.Array [1; 3] np.int64 [300; 400; 500]%Z.

(** Shape (1, 5, 2): a leading axis of length one and two channels. *)
Definition ones_1x5x2 : np.ndarray :=
  np.Array [1; 5; 2] np.uint8 (replicate 10 1%Z).

Definition zeros_2x2x2 : np.ndarray :=
  np.Array [2; 2; 2] np.uint8 (replicate 8 0%Z).

Definition zeros_2x2x2x2 : np.ndarray :=
  np.Array [2; 2; 2; 2] np.uint8 (replicate 16 0%Z).

(** A 16-bit image file whose pixel data cannot be decoded, opened on
    handle 7, and a state in which that handle is open. *)
Definition truncated_image : PIL.Image :=
  PIL.MkImage "I;16" (2, 2) (Raise (IOError "image file is truncated"))
    None (0, 0) (Some (Some 7)).

Definition readable_image : PIL.Image :=
  PIL.MkImage "L" (2, 2) (Ok [x01; x02; x03; x04]) None (0, 0) (Some (Some 7)).

Definition world_with_handle : PIL.world := PIL.World ∅ {[7]} [].

Definition truncated_file : PIL.Image :=
  PIL.MkImage "L" (2, 2) (Raise (IOError "image file is truncated"))
    None (0, 0) None.

Definition world_with_file : PIL.world :=
  PIL.World {["truncated.png"%string := truncated_file]} ∅ [].

(** What [Image.open] makes of that file in [world_with_file]. *)
Definition opened_truncated_file : PIL.Image :=
  PIL.MkImage "L" (2, 2) (Raise (IOError "image file is truncated"))
    None (0, 0) (Some (Some (fresh (∅ : gset PIL.handle)))).

Definition world_after_open : PIL.world :=
  PIL.World {["truncated.png"%string := truncated_file]}
    ({[fresh (∅ : gset PIL.handle)]} ∪ ∅) [].

(** A big-endian 16-bit image, two pixels wide and one high. *)
Definition image_I16B : PIL.Image :=
  PIL.MkImage "I;16B" (2, 1) (Ok [x01; x02; x03; x04]) None (0, 0) None.

(** A palette whose rows 10 to 19 are (5,5,5) to (14,14,14) and whose
    other rows are coloured, and an image that uses the indices 10 to 20
    of it; a second palette that agrees with it on the rows below 20. *)
Definition palette_row (i : nat) : list Z :=
  if decide (10 ≤ i < 20) then replicate 3 (Z.of_nat i - 5)%Z
  else [Z.of_nat i; (255 - Z.of_nat i)%Z; 7%Z].

Definition sample_palette : list Z := concat (map palette_row (seq 0 256)).

Definition other_palette : list Z := take 60 sample_palette ++ replicate 708 0%Z.

Definition palette_image (pal : list Z) : PIL.Image :=
  PIL.MkImage "P" (2, 2) (Ok [x0a; x14; x0c; x0d]) (Some pal) (10, 20) None.

(** ** Vocabulary of the statements *)

(** The last two steps of [ndarray_to_pil]: a new image of the base mode
    and of the transposed shape, filled from the array's bytes read in
    the raw mode. *)
Definition pack (arr : np.ndarray) (mode mode_base : string)
  : result PIL.Image :=
  im ← PIL.new mode_base (np.T_shape arr);
  PIL.fromstring im (np.tostring arr) "raw" mode.

(** The two errors [ndarray_to_pil] raises for a shape it rejects. *)
Definition InvalidShape (e : exn) : Prop :=
  (∃ s, e = ValueError ("Invalid shape for image array: " +:+ s))
  ∨ e = ValueError "Invalid number of channels in image array.".

(** A shape with its trailing axes of length one removed. *)
Fixpoint drop_leading_ones (s : list nat) : list nat :=
  match s with
  | 1 :: s' => drop_leading_ones s'
  | _ => s
  end.

Definition squeeze_trailing (s : list nat) : list nat :=
  reverse (drop_leading_ones (reverse s)).

(** A shape that is neither 2-D nor 3-D, or is 3-D with a last axis other
    than 3 or 4. *)
Definition unsupported_shape (s : list nat) : Prop :=
  length s ∉ [2; 3] ∨ (length s = 3 ∧ s !!! 2 ∉ [3; 4]).

(** Row [i] of a flat R, G, B palette exists and its three channels are
    equal. *)
Definition gray_row (pal : list Z) (i : nat) : Prop :=
  ∃ v, pal !! (3 * i) = Some v ∧ pal !! (3 * i + 1) = Some v
       ∧ pal !! (3 * i + 2) = Some v.

(** The images handed to the codec's [save], in call order. *)
Definition saved_images (w : PIL.world) : list PIL.Image :=
  map (fun c => c.1.2) (PIL.save_calls w).

(** [pil_to_ndarray] along one of its [convert] branches: the image is
    converted to mode [m], read as an array, and the file object, if
    any, is closed. *)
Definition read_converted `{Collaborators} (im : PIL.Image) (m : string)
    (dtype : option np.dtype_t) : PIL.IO np.ndarray :=
  im' ← PIL.lift (Image_convert im m);
  a ← PIL.lift (np_array (inl im') dtype);
  _ ← match PIL.fp im with
      | Some (Some h) => PIL.close h
      | _ => PIL.ret tt
      end;
  PIL.ret a.

(** The format [imsave] passes on to [save]. *)
Definition default_format (fname : PIL.dest) (format_str : option string)
  : option string :=
  match fname, format_str with
  | PIL.FileObject _, None => Some "PNG"%string
  | _, _ => format_str
  end.

(** Further sample inputs. *)
Definition empty_0x3 : np.ndarray := np.Array [0; 3] np.int64 [].

Definition signed_2x2 : np.ndarray :=
  np.Array [2; 2] np.int32 [-1; 70000; 3; 4]%Z.

(** Shape (2, 3, 1), with values on both sides of 256. *)
Definition mixed_2x3x1 : np.ndarray :=
  np.Array [2; 3; 1] np.int64 [0; 1; 2; 300; 200; 255]%Z.

Definition image_RGB : PIL.Image :=
  PIL.MkImage "RGB" (2, 1) (Ok [x01; x02; x03; x04; x05; x06]) None (0, 0) None.

Definition readable_file : PIL.Image :=
  PIL.MkImage "L" (2, 2) (Ok [x01; x02; x03; x04]) None (0, 0) None.

Definition world_with_readable_file : PIL.world :=
  PIL.World {["ok.png"%string := readable_file]} ∅ [].

Definition opened_readable_file : PIL.Image :=
  PIL.MkImage "L" (2, 2) (Ok [x01; x02; x03; x04]) None (0, 0)
    (Some (Some (fresh (∅ : gset PIL.handle)))).

Definition world_after_open_readable : PIL.world :=
  PIL.World {["ok.png"%string := readable_file]}
    ({[fresh (∅ : gset PIL.handle)]} ∪ ∅) [].

(** * Properties *)

(** ** Bytes *)

Lemma Z_of_byte_of_Z (z : Z) : Bytes.Z_of_byte (Bytes.byte_of_Z z) = (z mod 256)%Z.
Proof.
  unfold Bytes.Z_of_byte, Bytes.byte_of_Z.
  assert (Hb : (0 <= z mod 256 < 256)%Z) by (apply Z.mod_pos_bound; lia).
  destruct (Byte.of_N (Z.to_N (z mod 256))) as [b|] eqn:E.
  - apply Byte.to_of_N in E. rewrite E. lia.
  - apply Byte.of_N_None_iff in E. lia.
Qed.

Lemma Z_of_byte_bound (b : byte) : (0 <= Bytes.Z_of_byte b < 256)%Z.
Proof.
  unfold Bytes.Z_of_byte. pose proof (Byte.to_N_bounded b). lia.
Qed.

Lemma length_le_of_Z (n : nat) (z : Z) : length (Bytes.le_of_Z n z) = n.
Proof.
  revert z. induction n as [|n IH]; intros z; simpl; [reflexivity|].
  now rewrite IH.
Qed.

Lemma Z_of_le_of_Z (n : nat) (z : Z) :
  Bytes.Z_of_le (Bytes.le_of_Z n z) = (z mod 2 ^ (8 * Z.of_nat n))%Z.
Proof.
  revert z. induction n as [|n IH]; intros z.
  - simpl. now rewrite Z.mod_1_r.
  - cbn [Bytes.le_of_Z Bytes.Z_of_le].
    rewrite Z_of_byte_of_Z, IH.
    replace (8 * Z.of_nat (S n))%Z with (8 + 8 * Z.of_nat n)%Z by lia.
    rewrite Z.pow_add_r by lia.
    change (2 ^ 8)%Z with 256%Z.
    rewrite Z.rem_mul_r by lia. reflexivity.
Qed.

Lemma chunks_concat {A} (k : nat) (pieces : list (list A)) (rest : list A) :
  Forall (fun p => length p = k) pieces →
  Bytes.chunks (length pieces) k (concat pieces ++ rest) = pieces.
Proof.
  induction 1 as [|p ps Hp _ IH]; simpl; [reflexivity|].
  rewrite <- app_assoc, <- Hp, take_app_length, drop_app_length.
  rewrite Hp. now rewrite IH.
Qed.

Lemma concat_chunks {A} (n k : nat) (l : list A) :
  n * k ≤ length l → concat (Bytes.chunks n k l) = take (n * k) l.
Proof.
  revert l. induction n as [|n IH]; intros l Hl; simpl; [reflexivity|].
  rewrite IH by (rewrite length_drop; lia).
  apply take_take_drop.
Qed.

Lemma length_chunks {A} (n k : nat) (l : list A) :
  length (Bytes.chunks n k l) = n.
Proof.
  revert l. induction n as [|n IH]; intros l; simpl; [reflexivity|].
  now rewrite IH.
Qed.

Lemma lookup_chunks {A} (n k i : nat) (l : list A) :
  i < n → Bytes.chunks n k l !! i = Some (take k (drop (i * k) l)).
Proof.
  revert l i. induction n as [|n IH]; intros l i Hi; [lia|].
  destruct i as [|i]; simpl; [reflexivity|].
  rewrite IH by lia. now rewrite drop_drop.
Qed.

(** ** Elements and their bytes *)

Lemma length_encode (d : np.dtype_t) (z : Z) :
  length (np.encode d z) = np.itemsize d.
Proof.
  unfold np.encode.
  destruct (np.byteorder d); rewrite ?length_reverse; apply length_le_of_Z.
Qed.

Lemma decode_encode_unsigned (d : np.dtype_t) (z : Z) :
  np.kind d = np.kind_u →
  (0 <= z < 2 ^ (8 * Z.of_nat (np.itemsize d)))%Z →
  np.decode d (np.encode d z) = z.
Proof.
  intros Hk Hz. unfold np.decode, np.encode. rewrite Hk.
  destruct (np.byteorder d); rewrite ?reverse_involutive, Z_of_le_of_Z;
    now apply Z.mod_small.
Qed.

Lemma decode_encode_signed (d : np.dtype_t) (z : Z) :
  np.kind d = np.kind_i →
  (0 <= z < 2 ^ (8 * Z.of_nat (np.itemsize d)) / 2)%Z →
  np.decode d (np.encode d z) = z.
Proof.
  intros Hk Hz. unfold np.decode, np.encode. rewrite Hk.
  set (m := (2 ^ (8 * Z.of_nat (np.itemsize d)))%Z) in *.
  assert (Hm : (m / 2 <= m)%Z).
  { apply Z.div_le_upper_bound; [lia|]. assert (0 < m)%Z by (apply Z.pow_pos_nonneg; lia). lia. }
  assert (Hu : (z mod m = z)%Z) by (apply Z.mod_small; lia).
  destruct (np.byteorder d); rewrite ?reverse_involutive, Z_of_le_of_Z;
    fold m; rewrite Hu; destruct (Z.leb_spec (m / 2) z); lia.
Qed.

(** Reading back the bytes of a list of elements. *)
Lemma decode_chunks_tostring (d : np.dtype_t) (zs : list Z) (n : nat) :
  n = length zs →
  Forall (fun z => np.decode d (np.encode d z) = z) zs →
  map (np.decode d)
      (Bytes.chunks n (np.itemsize d) (concat (map (np.encode d) zs))) = zs.
Proof.
  intros -> Hzs.
  rewrite <- (app_nil_r (concat _)), <- (length_map (np.encode d) zs).
  rewrite chunks_concat.
  - rewrite <- list_fmap_compose.
    induction Hzs as [|z zs Hz _ IH]; simpl; [reflexivity|].
    rewrite Hz. f_equal. exact IH.
  - apply Forall_fmap, Forall_forall. intros z _. simpl. apply length_encode.
Qed.

Lemma length_tostring (a : np.ndarray) :
  length (np.tostring a) = length (np.data a) * np.itemsize (np.dtype a).
Proof.
  unfold np.tostring. induction (np.data a) as [|z zs IH]; simpl; [reflexivity|].
  rewrite length_app, length_encode, IH. lia.
Qed.

(** ** Reductions and array helpers *)

Lemma foldl_max_in (x : Z) (xs : list Z) : foldl Z.max x xs ∈ x :: xs.
Proof.
  revert x. induction xs as [|y ys IH]; intros x; simpl.
  - apply elem_of_cons. now left.
  - specialize (IH (Z.max x y)). apply elem_of_cons in IH as [E|Hin].
    + rewrite E. destruct (Z.max_spec x y) as [[_ ->]|[_ ->]].
      * apply elem_of_cons. right. apply elem_of_cons. now left.
      * apply elem_of_cons. now left.
    + apply elem_of_cons. right. apply elem_of_cons. now right.
Qed.

Lemma foldl_min_in (x : Z) (xs : list Z) : foldl Z.min x xs ∈ x :: xs.
Proof.
  revert x. induction xs as [|y ys IH]; intros x; simpl.
  - apply elem_of_cons. now left.
  - specialize (IH (Z.min x y)). apply elem_of_cons in IH as [E|Hin].
    + rewrite E. destruct (Z.min_spec x y) as [[_ ->]|[_ ->]].
      * apply elem_of_cons. now left.
      * apply elem_of_cons. right. apply elem_of_cons. now left.
    + apply elem_of_cons. right. apply elem_of_cons. now right.
Qed.

Lemma max_in (a : np.ndarray) (P : Z → Prop) :
  np.data a ≠ [] → Forall P (np.data a) → ∃ m, np.max a = Ok m ∧ P m.
Proof.
  unfold np.max. destruct (np.data a) as [|x xs]; [done|]. intros _ HP.
  eexists; split; [reflexivity|].
  rewrite Forall_forall in HP. apply HP, foldl_max_in.
Qed.

Lemma min_in (a : np.ndarray) (P : Z → Prop) :
  np.data a ≠ [] → Forall P (np.data a) → ∃ m, np.min a = Ok m ∧ P m.
Proof.
  unfold np.min. destruct (np.data a) as [|x xs]; [done|]. intros _ HP.
  eexists; split; [reflexivity|].
  rewrite Forall_forall in HP. apply HP, foldl_min_in.
Qed.

Lemma squeeze_2d (h w : nat) (d : np.dtype_t) (zs : list Z) :
  h ≠ 1 → w ≠ 1 → np.squeeze (np.Array [h; w] d zs) = np.Array [h; w] d zs.
Proof.
  intros Hh Hw. unfold np.squeeze. simpl.
  rewrite !filter_cons, filter_nil.
  destruct (decide (h ≠ 1)); [|done]. destruct (decide (w ≠ 1)); [|done].
  reflexivity.
Qed.

(** ** Mode selection, packing and reading back *)

(** An image that [pack] returns has the base mode. *)
Lemma pack_mode (a : np.ndarray) (mode mode_base : string) (im : PIL.Image) :
  pack a mode mode_base = Ok im → PIL.mode im = mode_base.
Proof.
  unfold pack, PIL.new.
  destruct (np.T_shape a) as [|w [|h [|? ?]]]; try discriminate.
  destruct (PIL.pixel_bytes mode_base); [|discriminate].
  cbn [mbind result_bind]. unfold PIL.fromstring.
  change (negb ("raw" =? "raw")%string) with false. cbv iota.
  cbn [PIL.mode PIL.size].
  destruct (PIL.unpacker mode_base mode) as [[k u]|]; [|discriminate].
  destruct (decide _); [|discriminate].
  now intros [= <-].
Qed.

Section Conversions.

Context `{Collaborators}.

Lemma ndarray_to_pil_float (arr : np.ndarray) (format_str : option string) :
  np.ndim (np.squeeze arr) = 2 →
  np.kind (np.dtype arr) = np.kind_f →
  ndarray_to_pil arr format_str =
    (a ← img_as_uint (np.squeeze arr); pack a "I;16" "I").
Proof.
  intros Hn Hk. unfold ndarray_to_pil, pack.
  rewrite Hn. cbn [np.squeeze np.dtype]. rewrite Hk.
  cbn. destruct (img_as_uint _); reflexivity.
Qed.

Lemma ndarray_to_pil_8bit (arr : np.ndarray) (format_str : option string) (mx mn : Z) :
  np.ndim (np.squeeze arr) = 2 →
  np.kind (np.dtype arr) ≠ np.kind_f →
  np.max (np.squeeze arr) = Ok mx → (mx < 256)%Z →
  np.min (np.squeeze arr) = Ok mn → (0 <= mn)%Z →
  ndarray_to_pil arr format_str = pack (np_astype (np.squeeze arr) np.uint8) "L" "L".
Proof.
  intros Hn Hk Emx Hmx Emn Hmn. unfold ndarray_to_pil, pack.
  rewrite Hn, Emx, Emn. cbn [np.squeeze np.dtype].
  rewrite (bool_decide_eq_false_2 _ Hk).
  cbn -[np_astype PIL.new PIL.fromstring np.tostring].
  destruct (Z.ltb_spec mx 256); [|lia].
  cbn -[np_astype PIL.new PIL.fromstring np.tostring].
  destruct (Z.leb_spec 0 mn); [|lia].
  reflexivity.
Qed.

Lemma ndarray_to_pil_16bit (arr : np.ndarray) (format_str : option string) (mx mn : Z) :
  np.ndim (np.squeeze arr) = 2 →
  np.kind (np.dtype arr) ≠ np.kind_f →
  np.max (np.squeeze arr) = Ok mx → (256 <= mx < 2 ^ 16)%Z →
  np.min (np.squeeze arr) = Ok mn → (0 <= mn)%Z →
  ndarray_to_pil arr format_str =
    pack (np_astype (np.squeeze arr) np.uint16) "I;16" "I".
Proof.
  intros Hn Hk Emx Hmx Emn Hmn. unfold ndarray_to_pil, pack.
  rewrite Hn, Emx, Emn. cbn [np.squeeze np.dtype].
  rewrite (bool_decide_eq_false_2 _ Hk).
  cbn -[np_astype PIL.new PIL.fromstring np.tostring Z.pow].
  destruct (Z.ltb_spec mx 256); [lia|].
  cbn -[np_astype PIL.new PIL.fromstring np.tostring Z.pow].
  destruct (Z.ltb_spec mx (2 ^ 16)); [|lia].
  cbn -[np_astype PIL.new PIL.fromstring np.tostring Z.pow].
  destruct (Z.leb_spec 0 mn); [|lia].
  reflexivity.
Qed.

Lemma astype_integer (a : np.ndarray) (d : np.dtype_t) :
  np.kind (np.dtype a) ≠ np.kind_f → np.kind d ≠ np.kind_f →
  Forall (fun z => np.wrap d z = z) (np.data a) →
  np_astype a d = np.Array (np.shape a) d (np.data a).
Proof.
  intros Ha Hd Hz. unfold np_astype. f_equal.
  transitivity (map (np.wrap d) (np.data a)).
  - destruct (np.kind (np.dtype a)), (np.kind d); done.
  - rewrite <- (list_fmap_id (np.data a)) at 2.
    apply Forall_fmap_ext. exact Hz.
Qed.


Lemma pack_2d (a : np.ndarray) (h w k bpp : nat) (mode mode_base : string)
    (unpack : list byte → list byte) :
  np.shape a = [h; w] →
  PIL.pixel_bytes mode_base = Some bpp →
  PIL.unpacker mode_base mode = Some (k, unpack) →
  np.itemsize (np.dtype a) = k →
  length (np.data a) = h * w →
  pack a mode mode_base =
    Ok (PIL.MkImage mode_base (w, h)
          (Ok (concat (map unpack (map (np.encode (np.dtype a)) (np.data a)))))
          None (0, 0) None).
Proof.
  intros Hs Hb Hu Hk Hlen. unfold pack, np.T_shape. rewrite Hs.
  cbn [reverse rev_append PIL.new]. unfold PIL.new. cbn. rewrite Hb. cbn.
  unfold PIL.fromstring. cbn. rewrite Hu.
  rewrite length_tostring, Hk.
  destruct (decide (w * h * k ≤ length (np.data a) * k)) as [_|Hn]; [|nia].
  do 3 f_equal. f_equal. unfold np.tostring.
  rewrite <- (app_nil_r (concat _)).
  replace (w * h) with (length (map (np.encode (np.dtype a)) (np.data a)))
    by (rewrite length_map; lia).
  f_equal. apply chunks_concat.
  apply Forall_fmap, Forall_forall. intros z _. simpl. now rewrite length_encode.
Qed.


Lemma pil_to_ndarray_L (w h : nat) (buf : list byte) (world : PIL.world) :
  h * w ≤ length buf →
  pil_to_ndarray (PIL.MkImage "L" (w, h) (Ok buf) None (0, 0) None) None world =
    (Ok (np.Array [h; w] np.uint8
           (map (np.decode np.uint8) (Bytes.chunks (h * w) 1 buf))), world).
Proof.
  intros Hlen. unfold pil_to_ndarray. cbn.
  unfold mbind, PIL.IO_bind, PIL.bind, PIL.lift, np_array, PIL.array_interface.
  cbn. unfold np.frombuffer. cbn.
  destruct (decide (h * (w * 1) * 1 ≤ length buf)) as [_|Hn]; [|lia].
  cbn. replace (h * (w * 1)) with (h * w) by lia. reflexivity.
Qed.

Lemma pil_to_ndarray_I (w h : nat) (buf : list byte) (world : PIL.world) :
  h * w * 4 ≤ length buf →
  pil_to_ndarray (PIL.MkImage "I" (w, h) (Ok buf) None (0, 0) None) None world =
    (Ok (np.Array [h; w] np.int32
           (map (np.decode np.int32) (Bytes.chunks (h * w) 4 buf))), world).
Proof.
  intros Hlen. unfold pil_to_ndarray. cbn.
  unfold mbind, PIL.IO_bind, PIL.bind, PIL.lift, np_array, PIL.array_interface.
  cbn. unfold np.frombuffer. cbn.
  destruct (decide (h * (w * 1) * 4 ≤ length buf)) as [_|Hn]; [|lia].
  cbn. replace (h * (w * 1)) with (h * w) by lia. reflexivity.
Qed.


(** C1 (amended): for every array that is 2-D once squeezed and of
    floating-point kind, [ndarray_to_pil] is the 16-bit branch: the array goes through
    [img_as_uint] and is packed with raw mode ['I;16'] into an image of
    base mode ['I']; an image it returns is never an ['L'] image,
    whatever values the conversion produced. *)
Theorem float_2d_selects_16bit (arr : np.ndarray) (format_str : option string) :
  np.ndim (np.squeeze arr) = 2 →
  np.kind (np.dtype arr) = np.kind_f →
  ndarray_to_pil arr format_str =
    (a ← img_as_uint (np.squeeze arr); pack a "I;16" "I")
  ∧ ∀ im, ndarray_to_pil arr format_str = Ok im →
          PIL.mode im = "I"%string ∧ PIL.mode im ≠ "L"%string.
Proof.
  intros Hn Hk. split; [now apply ndarray_to_pil_float|].
  intros im. rewrite ndarray_to_pil_float by assumption.
  destruct (img_as_uint (np.squeeze arr)) as [a|e]; [|discriminate].
  cbn. unfold pack, PIL.new.
  destruct (np.T_shape a) as [|w [|h [|? ?]]]; try discriminate.
  cbn. unfold PIL.fromstring. cbn.
  destruct (decide _); [|discriminate].
  intros [= <-]. cbn. split; [reflexivity|discriminate].
Qed.

(** An array of floating-point kind never comes out as an ['L'] image,
    whatever its shape. *)
Lemma float_never_luminance (arr : np.ndarray) (format_str : option string)
    (im : PIL.Image) :
  np.kind (np.dtype arr) = np.kind_f →
  ndarray_to_pil arr format_str = Ok im → PIL.mode im ≠ "L"%string.
Proof.
  intros Hk. unfold ndarray_to_pil. fold (pack).
  cbn [np.squeeze np.dtype]. rewrite Hk.
  set (a := np.squeeze arr).
  destruct (negb (bool_decide (np.ndim a ∈ [2; 3]))).
  { destruct (Str.percent_s _ _); discriminate. }
  cbn [mbind result_bind].
  destruct (bool_decide (np.ndim a = 3)).
  - destruct (negb _); [discriminate|]. cbn [mbind result_bind].
    destruct (img_as_ubyte _) as [b|]; [|discriminate]. cbn [mbind result_bind].
    destruct (np.shape b !! 2) as [[|[|[|[|[|n]]]]]|]; try discriminate;
      cbn [mbind result_bind]; intros Hp;
      apply (pack_mode b) in Hp; rewrite Hp; discriminate.
  - cbn [mbind result_bind bool_decide decide_rel].
    destruct (img_as_uint _) as [b|]; [|discriminate]. cbn [mbind result_bind].
    intros Hp. apply (pack_mode b) in Hp. rewrite Hp. discriminate.
Qed.

(** C2 (amended): for every 2-D array [A] of shape [(h, w)] with
    [h >= 2] and [w >= 2], of a non-floating element kind and with all
    values in [0, 256), [ndarray_to_pil] returns an image and
    [pil_to_ndarray] reads from it an array with the shape and the
    values of [A]; the handle state is untouched. *)
Theorem roundtrip_8bit (A : np.ndarray) (h w : nat)
    (format_str : option string) (world : PIL.world) :
  np.shape A = [h; w] → 2 ≤ h → 2 ≤ w →
  length (np.data A) = h * w →
  np.kind (np.dtype A) ≠ np.kind_f →
  Forall (fun z => 0 <= z < 256)%Z (np.data A) →
  ∃ im B,
    ndarray_to_pil A format_str = Ok im ∧
    pil_to_ndarray im None world = (Ok B, world) ∧
    np.shape B = np.shape A ∧ np.data B = np.data A.
Proof.
  intros Hs Hh Hw Hlen Hk Hv.
  destruct A as [s d zs]; simpl in *; subst s.
  assert (Hne : zs ≠ []) by (intros ->; simpl in Hlen; nia).
  destruct (max_in (np.Array [h; w] d zs) (fun z => 0 <= z < 256)%Z Hne Hv) as (mx & Emx & Hmx).
  destruct (min_in (np.Array [h; w] d zs) (fun z => 0 <= z < 256)%Z Hne Hv) as (mn & Emn & Hmn).
  rewrite (ndarray_to_pil_8bit _ _ mx mn); rewrite ?squeeze_2d by lia; try done; try lia.
  rewrite astype_integer; [|done|done|].
  2:{ simpl. eapply Forall_impl; [exact Hv|]. intros z Hz. simpl in Hz.
      unfold np.wrap. simpl. apply Z.mod_small. lia. }
  erewrite (pack_2d _ h w 1 1 "L" "L" id); try reflexivity; [|exact Hlen].
  cbn [np.shape np.data np.dtype]. rewrite list_fmap_id.
  do 2 eexists. split; [reflexivity|].
  rewrite pil_to_ndarray_L.
  2:{ change (concat _) with (np.tostring (np.Array [h; w] np.uint8 zs)).
      rewrite length_tostring. simpl. lia. }
  split; [reflexivity|]. split; [reflexivity|]. cbn [np.data].
  apply (decode_chunks_tostring np.uint8); [lia|].
  eapply Forall_impl; [exact Hv|]. intros z Hz. simpl in Hz.
  apply decode_encode_unsigned; [reflexivity|]. simpl. lia.
Qed.


(** C3 (amended): for every 2-D array [A] of shape [(h, w)] with
    [h >= 2] and [w >= 2], of a non-floating element kind and with all
    values in [256, 65536), the round trip through [ndarray_to_pil] and
    [pil_to_ndarray] gives back the shape and every value of [A]. *)
Theorem roundtrip_16bit (A : np.ndarray) (h w : nat)
    (format_str : option string) (world : PIL.world) :
  np.shape A = [h; w] → 2 ≤ h → 2 ≤ w →
  length (np.data A) = h * w →
  np.kind (np.dtype A) ≠ np.kind_f →
  Forall (fun z => 256 <= z < 65536)%Z (np.data A) →
  ∃ im B,
    ndarray_to_pil A format_str = Ok im ∧
    pil_to_ndarray im None world = (Ok B, world) ∧
    np.shape B = np.shape A ∧ np.data B = np.data A.
Proof.
  intros Hs Hh Hw Hlen Hk Hv.
  destruct A as [s d zs]; simpl in *; subst s.
  assert (Hne : zs ≠ []) by (intros ->; simpl in Hlen; nia).
  destruct (max_in (np.Array [h; w] d zs) (fun z => 256 <= z < 65536)%Z Hne Hv) as (mx & Emx & Hmx).
  destruct (min_in (np.Array [h; w] d zs) (fun z => 256 <= z < 65536)%Z Hne Hv) as (mn & Emn & Hmn).
  rewrite (ndarray_to_pil_16bit _ _ mx mn); rewrite ?squeeze_2d by lia; try done; try lia.
  rewrite astype_integer; [|done|done|].
  2:{ simpl. eapply Forall_impl; [exact Hv|]. intros z Hz. simpl in Hz.
      unfold np.wrap. simpl. apply Z.mod_small. lia. }
  erewrite (pack_2d _ h w 2 4 "I;16" "I"); try reflexivity; [|exact Hlen].
  cbn [np.shape np.data np.dtype].
  do 2 eexists. split; [reflexivity|].
  assert (E : map (λ c, Bytes.le_of_Z 4 (Bytes.Z_of_le c)) (map (np.encode np.uint16) zs)
              = map (np.encode np.int32) zs).
  { rewrite <- list_fmap_compose. apply Forall_fmap_ext.
    eapply Forall_impl; [exact Hv|]. intros z Hz. cbv beta in Hz.
    cbv [compose np.encode np.uint16 np.int32 np.byteorder np.itemsize].
    rewrite (Z_of_le_of_Z 2). f_equal.
    apply Z.mod_small. simpl. lia. }
  rewrite E.
  rewrite pil_to_ndarray_I.
  2:{ change (concat _) with (np.tostring (np.Array [h; w] np.int32 zs)).
      rewrite length_tostring. simpl. lia. }
  split; [reflexivity|]. split; [reflexivity|]. cbn [np.data].
  apply (decode_chunks_tostring np.int32); [lia|].
  eapply Forall_impl; [exact Hv|]. intros z Hz. simpl in Hz.
  apply decode_encode_signed; [reflexivity|].
  change (2 ^ (8 * Z.of_nat (np.itemsize np.int32)) / 2)%Z with 2147483648%Z. lia.
Qed.

(** C5 (amended): [ndarray_to_pil] raises one of its two shape errors
    for every array whose shape, once all axes of length one are
    squeezed away, is 1-D, or is 3-D with a last axis other than 3 or
    4. *)
Theorem invalid_shape_rejected (arr : np.ndarray) (format_str : option string) :
  length (np.shape (np.squeeze arr)) = 1
  ∨ (length (np.shape (np.squeeze arr)) = 3
     ∧ np.shape (np.squeeze arr) !!! 2 ∉ [3; 4]) →
  ∃ e, ndarray_to_pil arr format_str = Raise e ∧ InvalidShape e.
Proof.
  intros Hs. unfold ndarray_to_pil, np.ndim.
  destruct (np.squeeze arr) as [s d zs]. cbn [np.shape] in *.
  destruct Hs as [H1|[H3 Hc]].
  - destruct s as [|n [|? ?]]; try discriminate. cbn.
    eexists. split; [reflexivity|]. left. eexists. reflexivity.
  - destruct s as [|a [|b [|c [|? ?]]]]; try discriminate.
    cbn in Hc. cbn -[list_elem_of_dec].
    rewrite (bool_decide_eq_false_2 _ Hc). cbn.
    eexists. split; [reflexivity|]. now right.
Qed.

(** C8: the format hint is never consulted for the pixel mode.
    [ndarray_to_pil] returns the same result for any two values of
    [format_str], and [imsave] hands the same image to the codec for
    any two values of its [format_str]. *)
Theorem format_str_not_consulted (arr : np.ndarray) (f1 f2 : option string)
    (fname : PIL.dest) (w : PIL.world) :
  ndarray_to_pil arr f1 = ndarray_to_pil arr f2
  ∧ saved_images (imsave fname arr f1 w).2 = saved_images (imsave fname arr f2 w).2.
Proof.
  split; [reflexivity|].
  unfold imsave, Image_save, mbind, PIL.IO_bind, PIL.bind, PIL.lift, PIL.save,
    saved_images.
  destruct (ndarray_to_pil arr None) as [img|e]; cbn; [|done].
  rewrite !map_app. done.
Qed.

End Conversions.

(** ** The grayscale-palette test *)

Lemma isclose0_iff (x : Z) : np.isclose0 x = true ↔ x = 0%Z.
Proof.
  unfold np.isclose0, Qle_bool. destruct x as [|p|p]; cbn.
  - done.
  - split; [|discriminate]. intros Hle. apply Z.leb_le in Hle. lia.
  - split; [|discriminate]. intros Hle. apply Z.leb_le in Hle. lia.
Qed.

Lemma gray_row_0 (r g b : Z) (l : list Z) :
  gray_row (r :: g :: b :: l) 0 ↔ g = r ∧ b = g.
Proof.
  unfold gray_row. cbn. split.
  - intros (v & [= ->] & [= ->] & [= ->]). done.
  - intros [-> ->]. eauto.
Qed.

Lemma gray_row_S (r g b : Z) (l : list Z) (j : nat) :
  gray_row (r :: g :: b :: l) (S j) ↔ gray_row l j.
Proof.
  unfold gray_row.
  replace (3 * S j) with (S (S (S (3 * j)))) by lia. cbn. done.
Qed.

Lemma allclose_diff_rows (n : nat) (l : list Z) :
  3 * n ≤ length l →
  forallb np.isclose0 (concat (map np.diff_row (Bytes.chunks n 3 l))) = true
  ↔ ∀ j, j < n → gray_row l j.
Proof.
  revert l. induction n as [|n IH]; intros l Hl.
  - cbn. split; [intros _ j Hj; lia|done].
  - destruct l as [|r [|g [|b l]]]; cbn in Hl; try lia.
    cbn -[np.isclose0 Z.sub]. rewrite take_0, drop_0. cbn [app].
    rewrite !andb_true_iff, !isclose0_iff, IH by lia.
    split.
    + intros (Hg & Hb & Hrest) [|j] Hj.
      * apply gray_row_0. lia.
      * apply gray_row_S, Hrest. lia.
    + intros Hall. split; [|split].
      * pose proof (proj1 (gray_row_0 r g b l) (Hall 0 ltac:(lia))). lia.
      * pose proof (proj1 (gray_row_0 r g b l) (Hall 0 ltac:(lia))). lia.
      * intros j Hj. apply (gray_row_S r g b), Hall. lia.
Qed.

Lemma gray_row_slice (pal : list Z) (lo k j : nat) :
  j < k →
  gray_row (take (k * 3) (drop (lo * 3) pal)) j ↔ gray_row pal (lo + j).
Proof.
  intros Hj. unfold gray_row.
  rewrite !lookup_take_lt, !lookup_drop by lia.
  replace (lo * 3 + 3 * j) with (3 * (lo + j)) by lia.
  replace (lo * 3 + (3 * j + 1)) with (3 * (lo + j) + 1) by lia.
  replace (lo * 3 + (3 * j + 2)) with (3 * (lo + j) + 2) by lia.
  done.
Qed.

Lemma palette_is_grayscale_spec (im : PIL.Image) (pal : list Z)
    (start stop : nat) (bs : list byte) :
  PIL.mode im = "P"%string → PIL.pixels im = Ok bs →
  PIL.palette im = Some pal → length pal = 768 →
  PIL.extrema im = (start, stop) →
  ∃ b, _palette_is_grayscale im = Ok b
       ∧ (b = true ↔ ∀ i, start ≤ i < stop → i < 256 → gray_row pal i).
Proof.
  intros Hm Hp Hpal Hlen Hext.
  unfold _palette_is_grayscale, PIL.getpalette, PIL.getextrema, PIL.load.
  rewrite Hm, Hp, Hpal, Hext. cbn.
  unfold np.reshape. cbn. rewrite Hlen. cbn.
  eexists. split; [reflexivity|].
  unfold np.allclose0. cbn [np.data].
  set (lo := start `min` 256). set (hi := stop `min` 256).
  replace (np.prod [hi - lo]) with (hi - lo) by (cbn; lia).
  replace ((hi - lo) * np.prod [3]) with ((hi - lo) * 3) by (cbn; lia).
  replace (lo * np.prod [3]) with (lo * 3) by (cbn; lia).
  rewrite allclose_diff_rows by (rewrite length_take, length_drop; lia).
  split.
  - intros Hall i Hi H256.
    replace i with (lo + (i - lo)) by lia.
    apply (gray_row_slice _ _ (hi - lo)); [lia|]. apply Hall. lia.
  - intros Hall j Hj. apply gray_row_slice; [lia|]. apply Hall; lia.
Qed.

(** C4: for a palette image with a 256-row palette and extrema
    [(start, stop)], [_palette_is_grayscale] returns [True] exactly when
    every palette row with index in [start, stop) has its three channels
    equal; when [start = stop] it returns [True]. *)
Theorem palette_is_grayscale_iff (im : PIL.Image) (pal : list Z)
    (start stop : nat) (bs : list byte) :
  PIL.mode im = "P"%string → PIL.pixels im = Ok bs →
  PIL.palette im = Some pal → length pal = 768 →
  PIL.extrema im = (start, stop) →
  ∃ b, _palette_is_grayscale im = Ok b
       ∧ (b = true ↔ ∀ i, start ≤ i < stop → i < 256 → gray_row pal i)
       ∧ (start = stop → b = true).
Proof.
  intros Hm Hp Hpal Hlen Hext.
  destruct (palette_is_grayscale_spec im pal start stop bs Hm Hp Hpal Hlen Hext)
    as (b & Hb & Hiff).
  exists b. split; [exact Hb|]. split; [exact Hiff|].
  intros ->. apply Hiff. intros i Hi. lia.
Qed.

(** C10: the result of [_palette_is_grayscale] only depends on the
    palette rows below [stop]: two palettes that agree on these rows get
    the same answer.  In particular a palette whose rows in
    [start, stop) are gray is reported grayscale although its row
    [stop], the largest index in use, is not gray. *)
Theorem palette_rows_from_stop_ignored (im1 im2 : PIL.Image)
    (pal1 pal2 : list Z) (start stop : nat) (bs1 bs2 : list byte) :
  PIL.mode im1 = "P"%string → PIL.pixels im1 = Ok bs1 →
  PIL.palette im1 = Some pal1 → length pal1 = 768 →
  PIL.extrema im1 = (start, stop) →
  PIL.mode im2 = "P"%string → PIL.pixels im2 = Ok bs2 →
  PIL.palette im2 = Some pal2 → length pal2 = 768 →
  PIL.extrema im2 = (start, stop) →
  (∀ k, k < 3 * stop → pal1 !! k = pal2 !! k) →
  _palette_is_grayscale im1 = _palette_is_grayscale im2
  ∧ ((∀ i, start ≤ i < stop → gray_row pal1 i) → ¬ gray_row pal1 stop →
     _palette_is_grayscale im1 = Ok true).
Proof.
  intros Hm1 Hp1 Hpal1 Hlen1 Hext1 Hm2 Hp2 Hpal2 Hlen2 Hext2 Hagree.
  destruct (palette_is_grayscale_spec im1 pal1 start stop bs1
              Hm1 Hp1 Hpal1 Hlen1 Hext1) as (b1 & Hb1 & Hiff1).
  destruct (palette_is_grayscale_spec im2 pal2 start stop bs2
              Hm2 Hp2 Hpal2 Hlen2 Hext2) as (b2 & Hb2 & Hiff2).
  rewrite Hb1, Hb2. split.
  - f_equal. apply Bool.eq_iff_eq_true. rewrite Hiff1, Hiff2.
    assert (Hrow : ∀ i, i < stop → gray_row pal1 i ↔ gray_row pal2 i).
    { intros i Hi. unfold gray_row. rewrite !Hagree by lia. reflexivity. }
    split; intros Hall i Hi H256; apply Hrow; try lia; apply Hall; lia.
  - intros Hgray _. f_equal. apply Hiff1. intros i Hi _. now apply Hgray.
Qed.

(** ** Reading an image into an array *)

Lemma Z_of_le_bound (bs : list byte) :
  (0 <= Bytes.Z_of_le bs < 2 ^ (8 * Z.of_nat (length bs)))%Z.
Proof.
  induction bs as [|b bs IH].
  - simpl. lia.
  - cbn [Bytes.Z_of_le length].
    replace (8 * Z.of_nat (S (length bs)))%Z with (8 + 8 * Z.of_nat (length bs))%Z by lia.
    rewrite Z.pow_add_r by lia. change (2 ^ 8)%Z with 256%Z.
    pose proof (Z_of_byte_bound b). nia.
Qed.

Lemma startswith_I16 (m : string) :
  Str.startswith m "I;16" = true →
  (m =? "P")%string = false ∧ (m =? "1")%string = false.
Proof.
  destruct m as [|c m]; [discriminate|].
  destruct c as [[] [] [] [] [] [] [] []]; try discriminate.
  intros _. split; reflexivity.
Qed.

Lemma take_2_drop {A} (l : list A) (k : nat) (a b : A) :
  l !! k = Some a → l !! (k + 1) = Some b → take 2 (drop k l) = [a; b].
Proof.
  intros Ha Hb. rewrite (drop_S _ _ _ Ha).
  replace (k + 1) with (S k) in Hb by lia.
  rewrite (drop_S _ _ _ Hb). reflexivity.
Qed.

Lemma decode_unsigned_bound (d : np.dtype_t) (c : list byte) :
  np.kind d = np.kind_u →
  (0 <= np.decode d c < 2 ^ (8 * Z.of_nat (length c)))%Z.
Proof.
  intros Hk. unfold np.decode. rewrite Hk.
  destruct (np.byteorder d); [|rewrite <- (length_reverse c)];
    apply Z_of_le_bound.
Qed.

Section Reading.

Context `{Collaborators}.

Lemma pil_to_ndarray_outcome (im : PIL.Image) (dtype : option np.dtype_t)
    (w : PIL.world) :
  ∃ r : result np.ndarray,
    pil_to_ndarray im dtype w =
      match r with
      | Ok a =>
          (Ok a,
           match PIL.fp im with
           | Some (Some h) =>
               PIL.World (PIL.files w) (PIL.open_handles w ∖ {[h]}) (PIL.save_calls w)
           | _ => w
           end)
      | Raise e => (Raise e, w)
      end.
Proof.
  unfold pil_to_ndarray, mbind, PIL.IO_bind, PIL.bind.
  match goal with |- context [PIL.lift ?r] => destruct r as [[x d]|e] end.
  2:{ exists (Raise e). reflexivity. }
  unfold PIL.lift at 1. cbv beta iota.
  unfold PIL.lift.
  destruct (np_array x d) as [a|e].
  2:{ exists (Raise e). reflexivity. }
  exists (Ok a). destruct (PIL.fp im) as [[h|]|]; reflexivity.
Qed.

(** C6 (amended): when the image's [fp] is an open file object and the
    conversion returns an array, that handle is closed in the resulting
    state. *)
Theorem handle_closed_on_success (im : PIL.Image) (dtype : option np.dtype_t)
    (w w' : PIL.world) (h : PIL.handle) (a : np.ndarray) :
  PIL.fp im = Some (Some h) →
  pil_to_ndarray im dtype w = (Ok a, w') →
  h ∉ PIL.open_handles w'.
Proof.
  intros Hfp. destruct (pil_to_ndarray_outcome im dtype w) as [[b|e] ->].
  - rewrite Hfp. intros [= _ <-]. cbn.
    apply not_elem_of_difference. right. now apply elem_of_singleton.
  - discriminate.
Qed.

(** C9: when the opened image cannot produce pixel data (its pixel
    access raises [IOError]), [imread] raises [ValueError] with the
    "Could not load" message and the pointer to the installation
    notes; nothing is returned. *)
Theorem imread_unreadable (fname : string) (dtype : option np.dtype_t)
    (w w' : PIL.world) (im : PIL.Image) (msg : string) :
  PIL.open fname w = (Ok im, w') →
  PIL.getdata im = Raise (IOError msg) →
  imread fname dtype w =
    (Raise (ValueError ("Could not load " +:+ Str.dquote +:+ fname +:+ Str.dquote
                        +:+ Str.newline +:+ "Please see documentation at: "
                        +:+ site)), w').
Proof.
  intros Hopen Hdata. unfold imread, mbind, PIL.IO_bind, PIL.bind.
  rewrite Hopen. unfold PIL.try_except_IOError_else, PIL.lift.
  rewrite Hdata. reflexivity.
Qed.

(** C7: for an image whose mode starts with ['I;16'], with size
    [(w, h)] and a buffer of [2 * w * h] bytes, [pil_to_ndarray]
    returns an array of shape [(h, w)] of unsigned 16-bit elements whose
    byte order is big-endian exactly when the mode ends in ['B']; element
    [i] is made of bytes [2 i] and [2 i + 1] of the buffer, most
    significant first for a mode ending in ['B'] and least significant
    first otherwise. *)
Theorem I16_read_honours_byte_order (im : PIL.Image) (dtype : option np.dtype_t)
    (world : PIL.world) (bs : list byte) (w h : nat) :
  Str.startswith (PIL.mode im) "I;16" = true →
  PIL.size im = (w, h) →
  PIL.pixels im = Ok bs →
  length bs = 2 * (w * h) →
  ∃ a world',
    pil_to_ndarray im dtype world = (Ok a, world') ∧
    np.shape a = [h; w] ∧
    np.dtype a = np.Dtype np.kind_u 2
                   (if Str.endswith (PIL.mode im) "B" then np.BigEndian
                    else np.LittleEndian) ∧
    length (np.data a) = h * w ∧
    ∀ i b0 b1, bs !! (2 * i) = Some b0 → bs !! (2 * i + 1) = Some b1 →
      np.data a !! i =
        Some (if Str.endswith (PIL.mode im) "B"
              then (256 * Bytes.Z_of_byte b0 + Bytes.Z_of_byte b1)%Z
              else (Bytes.Z_of_byte b0 + 256 * Bytes.Z_of_byte b1)%Z).
Proof.
  intros Hm Hsz Hpx Hlen.
  destruct (startswith_I16 _ Hm) as [HP H1].
  unfold pil_to_ndarray, mbind, PIL.IO_bind, PIL.bind, PIL.lift.
  rewrite HP, H1, Hm, Hsz. unfold PIL.tostring. rewrite Hpx.
  set (dt := if Str.endswith (PIL.mode im) "B" then np.u2_be else np.u2_le).
  assert (Hisz : np.itemsize dt = 2) by (unfold dt; destruct (Str.endswith _ _); reflexivity).
  assert (Hkind : np.kind dt = np.kind_u) by (unfold dt; destruct (Str.endswith _ _); reflexivity).
  cbn [fst snd result_bind].
  unfold np.fromstring. rewrite Hisz.
  assert (Emod : length bs `mod` 2 = 0)
    by (rewrite Hlen, Nat.mul_comm; apply Nat.Div0.mod_mul).
  assert (Ediv : length bs `div` 2 = h * w)
    by (rewrite Hlen, (Nat.mul_comm 2), Nat.div_mul by lia; lia).
  rewrite Ediv.
  destruct (decide (2 = 0)) as [?|_]; [lia|].
  destruct (decide (length bs `mod` 2 = 0)) as [_|?]; [|lia].
  cbn [result_bind]. unfold np.set_shape. cbn [np.data np.dtype np.shape].
  rewrite length_map, length_chunks.
  destruct (decide (np.prod [h; w] = h * w)) as [_|Hn]; [|cbn in Hn; lia].
  cbn [result_bind]. cbv beta iota. unfold np_array. cbn [result_bind mbind].
  set (a := np_astype _ dt).
  assert (Ha : a = np.Array [h; w] dt
                 (map (np.decode dt) (Bytes.chunks (h * w) 2 bs))).
  { unfold a. rewrite astype_integer;
      [reflexivity|cbn [np.dtype]; rewrite Hkind; done|rewrite Hkind; done|].
    cbn [np.data]. apply Forall_fmap, Forall_forall. intros c Hc. cbn.
    apply list_elem_of_lookup in Hc as [i Hc].
    assert (Hi : i < h * w).
    { apply lookup_lt_Some in Hc. now rewrite length_chunks in Hc. }
    rewrite lookup_chunks in Hc by exact Hi. injection Hc as <-.
    unfold np.wrap. rewrite Hkind, Hisz.
    apply Z.mod_small.
    pose proof (decode_unsigned_bound dt (take 2 (drop (i * 2) bs)) Hkind) as Hb.
    rewrite length_take, length_drop in Hb.
    replace (2 `min` (length bs - i * 2)) with 2 in Hb by lia.
    exact Hb. }
  rewrite Ha. clear a Ha.
  exists (np.Array [h; w] dt (map (np.decode dt) (Bytes.chunks (h * w) 2 bs))).
  exists (match PIL.fp im with
          | Some (Some h0) =>
              PIL.World (PIL.files world) (PIL.open_handles world ∖ {[h0]})
                (PIL.save_calls world)
          | _ => world
          end).
  split.
  { destruct (PIL.fp im) as [[h0|]|]; reflexivity. }
  cbn [np.shape np.dtype np.data].
  split; [reflexivity|]. split.
  { unfold dt. destruct (Str.endswith _ _); reflexivity. }
  split; [now rewrite length_map, length_chunks|].
  intros i b0 b1 Hb0 Hb1.
  assert (Hi : i < h * w) by (apply lookup_lt_Some in Hb1; lia).
  rewrite list_lookup_fmap, lookup_chunks by exact Hi.
  rewrite (Nat.mul_comm i 2), (take_2_drop _ _ b0 b1 Hb0 Hb1).
  cbn [fmap option_fmap option_map]. f_equal.
  unfold dt. destruct (Str.endswith _ _); cbn; lia.
Qed.

(** When the conversion raises, the state is left as it was: no handle
    is closed. *)
Lemma handles_kept_on_failure (im : PIL.Image) (dtype : option np.dtype_t)
    (w w' : PIL.world) (e : exn) :
  pil_to_ndarray im dtype w = (Raise e, w') → w' = w.
Proof.
  destruct (pil_to_ndarray_outcome im dtype w) as [[b|e'] ->].
  - discriminate.
  - now intros [= _ <-].
Qed.

End Reading.


(** ** Concrete runs *)

(** A 2x2 float64 array takes the 16-bit branch. *)
Lemma float_2d_selects_16bit_witness :
  np.ndim (np.squeeze float_2x2) = 2
  ∧ np.kind (np.dtype float_2x2) = np.kind_f
  ∧ (run_ndarray_to_pil float_2x2 None =
       (a ← @img_as_uint sample_collaborators (np.squeeze float_2x2);
        pack a "I;16" "I")
     ∧ ∀ im, run_ndarray_to_pil float_2x2 None = Ok im →
             PIL.mode im = "I"%string ∧ PIL.mode im ≠ "L"%string).
Proof.
  split; [reflexivity|]. split; [reflexivity|].
  apply (@float_2d_selects_16bit sample_collaborators float_2x2 None);
    reflexivity.
Defined.

(** C1 as stated fails: a 1x3 float64 array is 2-D and of floating-point
    kind, but it is squeezed to one dimension and rejected before any
    mode is selected. *)
Lemma float_unit_axis_counterexample :
  np.ndim float_1x3 = 2
  ∧ np.kind (np.dtype float_1x3) = np.kind_f
  ∧ run_ndarray_to_pil float_1x3 None =
      Raise (ValueError "Invalid shape for image array: 3").
Proof. repeat split; reflexivity. Qed.

(** The 8-bit round trip on a 2x3 array. *)
Lemma roundtrip_8bit_witness :
  np.shape small_2x3 = [2; 3] ∧ 2 ≤ 2 ∧ 2 ≤ 3
  ∧ length (np.data small_2x3) = 2 * 3
  ∧ np.kind (np.dtype small_2x3) ≠ np.kind_f
  ∧ Forall (fun z => 0 <= z < 256)%Z (np.data small_2x3)
  ∧ ∃ im B,
      run_ndarray_to_pil small_2x3 None = Ok im ∧
      run_pil_to_ndarray im None empty_world = (Ok B, empty_world) ∧
      np.shape B = np.shape small_2x3 ∧ np.data B = np.data small_2x3.
Proof.
  assert (Hv : Forall (fun z => 0 <= z < 256)%Z (np.data small_2x3))
    by (repeat constructor; lia).
  repeat split; try reflexivity; try lia; try discriminate; try exact Hv.
  apply (@roundtrip_8bit sample_collaborators small_2x3 2 3 None empty_world);
    try reflexivity; try lia; try discriminate; exact Hv.
Defined.

(** C2 as stated fails: a 1x3 array with values in [0, 256) is squeezed
    to one dimension and rejected, so there is nothing to read back. *)
Lemma roundtrip_8bit_counterexample :
  np.shape small_1x3 = [1; 3]
  ∧ np.kind (np.dtype small_1x3) = np.kind_i
  ∧ Forall (fun z => 0 <= z < 256)%Z (np.data small_1x3)
  ∧ run_ndarray_to_pil small_1x3 None =
      Raise (ValueError "Invalid shape for image array: 3").
Proof.
  repeat split; try reflexivity. repeat constructor; lia.
Qed.

(** The 16-bit round trip on a 2x3 array. *)
Lemma roundtrip_16bit_witness :
  np.shape wide_2x3 = [2; 3] ∧ 2 ≤ 2 ∧ 2 ≤ 3
  ∧ length (np.data wide_2x3) = 2 * 3
  ∧ np.kind (np.dtype wide_2x3) ≠ np.kind_f
  ∧ Forall (fun z => 256 <= z < 65536)%Z (np.data wide_2x3)
  ∧ ∃ im B,
      run_ndarray_to_pil wide_2x3 None = Ok im ∧
      run_pil_to_ndarray im None empty_world = (Ok B, empty_world) ∧
      np.shape B = np.shape wide_2x3 ∧ np.data B = np.data wide_2x3.
Proof.
  assert (Hv : Forall (fun z => 256 <= z < 65536)%Z (np.data wide_2x3))
    by (repeat constructor; lia).
  repeat split; try reflexivity; try lia; try discriminate; try exact Hv.
  apply (@roundtrip_16bit sample_collaborators wide_2x3 2 3 None empty_world);
    try reflexivity; try lia; try discriminate; exact Hv.
Defined.

(** C3 as stated fails: a 1x3 array with values in [256, 65536) is
    squeezed to one dimension and rejected. *)
Lemma roundtrip_16bit_counterexample :
  np.shape wide_1x3 = [1; 3]
  ∧ np.kind (np.dtype wide_1x3) = np.kind_i
  ∧ Forall (fun z => 256 <= z < 65536)%Z (np.data wide_1x3)
  ∧ run_ndarray_to_pil wide_1x3 None =
      Raise (ValueError "Invalid shape for image array: 3").
Proof.
  repeat split; try reflexivity. repeat constructor; lia.
Qed.

(** C5 as stated fails: shape (1, 5, 2) has no trailing axis of length
    one and is 3-D with two channels, yet it is accepted: the squeeze
    drops the leading axis and the array is packed as a 5x2 image. *)
Lemma trailing_squeeze_counterexample :
  unsupported_shape (squeeze_trailing (np.shape ones_1x5x2))
  ∧ run_ndarray_to_pil ones_1x5x2 None =
      Ok (PIL.MkImage "L" (2, 5) (Ok (replicate 10 x01)) None (0, 0) None).
Proof.
  split; [|reflexivity].
  right. split; [reflexivity|]. cbn.
  intros Hin. repeat (apply elem_of_cons in Hin as [Hin|Hin]; [discriminate|]).
  now apply elem_of_nil in Hin.
Qed.

(** Shape (2, 2, 2) is rejected with the channel-count error. *)
Lemma invalid_shape_rejected_witness :
  (length (np.shape (np.squeeze zeros_2x2x2)) = 1
   ∨ (length (np.shape (np.squeeze zeros_2x2x2)) = 3
      ∧ np.shape (np.squeeze zeros_2x2x2) !!! 2 ∉ [3; 4]))
  ∧ ∃ e, run_ndarray_to_pil zeros_2x2x2 None = Raise e ∧ InvalidShape e.
Proof.
  assert (Hs : length (np.shape (np.squeeze zeros_2x2x2)) = 1
   ∨ (length (np.shape (np.squeeze zeros_2x2x2)) = 3
      ∧ np.shape (np.squeeze zeros_2x2x2) !!! 2 ∉ [3; 4])).
  { right. split; [reflexivity|]. cbn.
    intros Hin. repeat (apply elem_of_cons in Hin as [Hin|Hin]; [discriminate|]).
    now apply elem_of_nil in Hin. }
  split; [exact Hs|].
  exact (@invalid_shape_rejected sample_collaborators zeros_2x2x2 None Hs).
Defined.

(** A squeezed shape of rank four: the error message cannot be formatted
    and the call raises [TypeError] instead of the shape error. *)
Lemma rank_4_raises_TypeError :
  run_ndarray_to_pil zeros_2x2x2x2 None =
    Raise (TypeError "not all arguments converted during string formatting").
Proof. reflexivity. Qed.

(** C6 as stated fails: the pixels of a 16-bit image opened on handle 7
    cannot be decoded, [im.tostring()] raises, so does the conversion,
    and handle 7 is still open afterwards. *)
Lemma handle_left_open_on_failure :
  PIL.fp truncated_image = Some (Some 7)
  ∧ 7 ∈ PIL.open_handles world_with_handle
  ∧ run_pil_to_ndarray truncated_image None world_with_handle =
      (Raise (IOError "image file is truncated"), world_with_handle).
Proof.
  split; [reflexivity|]. split; [|reflexivity].
  unfold world_with_handle. cbn [PIL.open_handles].
  now apply elem_of_singleton.
Qed.

(** A readable image opened on handle 7: the handle is closed. *)
Lemma handle_closed_on_success_witness :
  PIL.fp readable_image = Some (Some 7)
  ∧ run_pil_to_ndarray readable_image None world_with_handle =
      (Ok (np.Array [2; 2] np.uint8 [1; 2; 3; 4]%Z),
       PIL.World ∅ ({[7]} ∖ {[7]}) [])
  ∧ 7 ∉ PIL.open_handles (PIL.World ∅ ({[7]} ∖ {[7]}) []).
Proof.
  split; [reflexivity|]. split; [reflexivity|].
  apply (@handle_closed_on_success sample_collaborators readable_image None
           world_with_handle _ 7 (np.Array [2; 2] np.uint8 [1; 2; 3; 4]%Z));
    reflexivity.
Defined.

(** A big-endian image of two pixels. *)
Lemma I16_read_honours_byte_order_witness :
  Str.startswith (PIL.mode image_I16B) "I;16" = true
  ∧ PIL.size image_I16B = (2, 1)
  ∧ PIL.pixels image_I16B = Ok [x01; x02; x03; x04]
  ∧ length [x01; x02; x03; x04] = 2 * (2 * 1)
  ∧ ∃ a world',
      run_pil_to_ndarray image_I16B None empty_world = (Ok a, world') ∧
      np.shape a = [1; 2] ∧
      np.dtype a = np.Dtype np.kind_u 2
                     (if Str.endswith (PIL.mode image_I16B) "B"
                      then np.BigEndian else np.LittleEndian) ∧
      length (np.data a) = 1 * 2 ∧
      ∀ i b0 b1,
        [x01; x02; x03; x04] !! (2 * i) = Some b0 →
        [x01; x02; x03; x04] !! (2 * i + 1) = Some b1 →
        np.data a !! i =
          Some (if Str.endswith (PIL.mode image_I16B) "B"
                then (256 * Bytes.Z_of_byte b0 + Bytes.Z_of_byte b1)%Z
                else (Bytes.Z_of_byte b0 + 256 * Bytes.Z_of_byte b1)%Z).
Proof.
  repeat (split; [reflexivity|]).
  apply (@I16_read_honours_byte_order sample_collaborators image_I16B None
           empty_world [x01; x02; x03; x04] 2 1); reflexivity.
Defined.

Example I16B_values :
  (run_pil_to_ndarray image_I16B None empty_world).1 =
    Ok (np.Array [1; 2] np.u2_be [258; 772]%Z).
Proof. reflexivity. Qed.

(** Reading a truncated file. *)
Lemma imread_unreadable_witness :
  PIL.open "truncated.png" world_with_file
    = (Ok opened_truncated_file, world_after_open)
  ∧ PIL.getdata opened_truncated_file = Raise (IOError "image file is truncated")
  ∧ run_imread "truncated.png" None world_with_file =
      (Raise (ValueError
         ("Could not load " +:+ Str.dquote +:+ "truncated.png" +:+ Str.dquote
          +:+ Str.newline +:+ "Please see documentation at: " +:+ site)),
       world_after_open).
Proof.
  assert (Hopen : PIL.open "truncated.png" world_with_file
                  = (Ok opened_truncated_file, world_after_open)).
  { unfold PIL.open, world_with_file. cbn [PIL.files PIL.open_handles PIL.save_calls].
    rewrite lookup_singleton_eq. reflexivity. }
  split; [exact Hopen|]. split; [reflexivity|].
  exact (@imread_unreadable sample_collaborators "truncated.png" None
           world_with_file world_after_open opened_truncated_file
           "image file is truncated" Hopen eq_refl).
Defined.

Lemma length_sample_palette : length sample_palette = 768.
Proof. reflexivity. Qed.

Lemma sample_palette_gray :
  ∀ i, 10 ≤ i < 20 → gray_row sample_palette i.
Proof.
  intros i Hi.
  do 20 (destruct i as [|i];
         [try lia; try (eexists; repeat split; reflexivity)|]).
  lia.
Qed.

Lemma sample_palette_top_not_gray : ¬ gray_row sample_palette 20.
Proof.
  intros (v & H1 & H2 & _). vm_compute in H1, H2. congruence.
Qed.

(** The sample palette with extrema (10, 20). *)
Lemma palette_is_grayscale_iff_witness :
  PIL.mode (palette_image sample_palette) = "P"%string
  ∧ PIL.pixels (palette_image sample_palette) = Ok [x0a; x14; x0c; x0d]
  ∧ PIL.palette (palette_image sample_palette) = Some sample_palette
  ∧ length sample_palette = 768
  ∧ PIL.extrema (palette_image sample_palette) = (10, 20)
  ∧ ∃ b, _palette_is_grayscale (palette_image sample_palette) = Ok b
       ∧ (b = true ↔ ∀ i, 10 ≤ i < 20 → i < 256 → gray_row sample_palette i)
       ∧ (10 = 20 → b = true).
Proof.
  repeat (split; [reflexivity|]).
  apply (palette_is_grayscale_iff (palette_image sample_palette) sample_palette
           10 20 [x0a; x14; x0c; x0d]); reflexivity.
Defined.

Example sample_palette_reported_gray :
  _palette_is_grayscale (palette_image sample_palette) = Ok true.
Proof. vm_compute. reflexivity. Qed.

(** The sample palette is reported grayscale although index 20, which
    the image uses, has a coloured entry. *)
Lemma palette_rows_from_stop_ignored_witness :
  (∀ k, k < 3 * 20 → sample_palette !! k = other_palette !! k)
  ∧ (∀ i, 10 ≤ i < 20 → gray_row sample_palette i)
  ∧ ¬ gray_row sample_palette 20
  ∧ _palette_is_grayscale (palette_image sample_palette)
      = _palette_is_grayscale (palette_image other_palette)
  ∧ _palette_is_grayscale (palette_image sample_palette) = Ok true.
Proof.
  assert (Hagree : ∀ k, k < 3 * 20 →
                        sample_palette !! k = other_palette !! k).
  { intros k Hk. unfold other_palette.
    rewrite lookup_app_l by (rewrite length_take, length_sample_palette; lia).
    rewrite lookup_take_lt by lia. reflexivity. }
  pose proof (palette_rows_from_stop_ignored
                (palette_image sample_palette) (palette_image other_palette)
                sample_palette other_palette 10 20
                [x0a; x14; x0c; x0d] [x0a; x14; x0c; x0d]
                eq_refl eq_refl eq_refl eq_refl eq_refl
                eq_refl eq_refl eq_refl eq_refl eq_refl Hagree) as [Hsame Htop].
  split; [exact Hagree|]. split; [exact sample_palette_gray|].
  split; [exact sample_palette_top_not_gray|].
  split; [exact Hsame|].
  exact (Htop sample_palette_gray sample_palette_top_not_gray).
Defined.

(** * Further properties *)

(** ** Helpers *)

Lemma squeeze_squeeze (a : np.ndarray) : np.squeeze (np.squeeze a) = np.squeeze a.
Proof.
  unfold np.squeeze. cbn [np.shape np.dtype np.data]. f_equal.
  induction (np.shape a) as [|n s IH]; [reflexivity|].
  rewrite filter_cons. destruct (decide (n ≠ 1)) as [Hn|Hn].
  - rewrite filter_cons. destruct (decide (n ≠ 1)); [|done]. now rewrite IH.
  - exact IH.
Qed.

Lemma foldl_max_ge (x : Z) (xs : list Z) (z : Z) :
  z ∈ x :: xs → (z <= foldl Z.max x xs)%Z.
Proof.
  revert x z. induction xs as [|y ys IH]; intros x z Hz; simpl.
  - apply elem_of_cons in Hz as [->|Hz]; [lia|]. now apply elem_of_nil in Hz.
  - apply elem_of_cons in Hz as [->|Hz].
    + transitivity (Z.max x y); [lia|]. apply IH, elem_of_cons. now left.
    + apply elem_of_cons in Hz as [->|Hz].
      * transitivity (Z.max x y); [lia|]. apply IH, elem_of_cons. now left.
      * apply IH. apply elem_of_cons. now right.
Qed.

Lemma foldl_min_le (x : Z) (xs : list Z) (z : Z) :
  z ∈ x :: xs → (foldl Z.min x xs <= z)%Z.
Proof.
  revert x z. induction xs as [|y ys IH]; intros x z Hz; simpl.
  - apply elem_of_cons in Hz as [->|Hz]; [lia|]. now apply elem_of_nil in Hz.
  - apply elem_of_cons in Hz as [->|Hz].
    + transitivity (Z.min x y); [|lia]. apply IH, elem_of_cons. now left.
    + apply elem_of_cons in Hz as [->|Hz].
      * transitivity (Z.min x y); [|lia]. apply IH, elem_of_cons. now left.
      * apply IH. apply elem_of_cons. now right.
Qed.

Lemma max_bounds (a : np.ndarray) :
  np.data a ≠ [] →
  ∃ m, np.max a = Ok m ∧ m ∈ np.data a ∧ ∀ z, z ∈ np.data a → (z <= m)%Z.
Proof.
  unfold np.max. destruct (np.data a) as [|x xs]; [done|]. intros _.
  eexists. split; [reflexivity|]. split; [apply foldl_max_in|].
  intros z. apply foldl_max_ge.
Qed.

Lemma min_bounds (a : np.ndarray) :
  np.data a ≠ [] →
  ∃ m, np.min a = Ok m ∧ m ∈ np.data a ∧ ∀ z, z ∈ np.data a → (m <= z)%Z.
Proof.
  unfold np.min. destruct (np.data a) as [|x xs]; [done|]. intros _.
  eexists. split; [reflexivity|]. split; [apply foldl_min_in|].
  intros z. apply foldl_min_le.
Qed.

Lemma decode_uint8_chunks (bs : list byte) :
  map (np.decode np.uint8) (Bytes.chunks (length bs) 1 bs) = map Bytes.Z_of_byte bs.
Proof.
  induction bs as [|b bs IH]; [reflexivity|].
  cbn [length Bytes.chunks]. change (take 1 (b :: bs)) with [b].
  change (drop 1 (b :: bs)) with bs. cbn [map]. rewrite IH. f_equal.
  cbn. lia.
Qed.

Section Further.

Context `{Collaborators}.

Lemma read_back_8bit (h w : nat) (zs : list Z) (world : PIL.world) :
  length zs = h * w →
  Forall (fun z => 0 <= z < 256)%Z zs →
  ∃ im,
    pack (np.Array [h; w] np.uint8 zs) "L" "L" = Ok im ∧
    PIL.mode im = "L"%string ∧ PIL.size im = (w, h) ∧
    pil_to_ndarray im None world = (Ok (np.Array [h; w] np.uint8 zs), world).
Proof.
  intros Hlen Hv.
  erewrite (pack_2d _ h w 1 1 "L" "L" id); try reflexivity; [|exact Hlen].
  cbn [np.shape np.data np.dtype]. rewrite list_fmap_id.
  eexists. split; [reflexivity|]. split; [reflexivity|]. split; [reflexivity|].
  rewrite pil_to_ndarray_L.
  2:{ change (concat _) with (np.tostring (np.Array [h; w] np.uint8 zs)).
      rewrite length_tostring. simpl. lia. }
  do 3 f_equal.
  apply (decode_chunks_tostring np.uint8); [lia|].
  eapply Forall_impl; [exact Hv|]. intros z Hz. simpl in Hz.
  apply decode_encode_unsigned; [reflexivity|]. simpl. lia.
Qed.

Lemma read_back_16bit (h w : nat) (zs : list Z) (world : PIL.world) :
  length zs = h * w →
  Forall (fun z => 0 <= z < 65536)%Z zs →
  ∃ im,
    pack (np.Array [h; w] np.uint16 zs) "I;16" "I" = Ok im ∧
    PIL.mode im = "I"%string ∧ PIL.size im = (w, h) ∧
    pil_to_ndarray im None world = (Ok (np.Array [h; w] np.int32 zs), world).
Proof.
  intros Hlen Hv.
  erewrite (pack_2d _ h w 2 4 "I;16" "I"); try reflexivity; [|exact Hlen].
  cbn [np.shape np.data np.dtype].
  eexists. split; [reflexivity|]. split; [reflexivity|]. split; [reflexivity|].
  assert (E : map (λ c, Bytes.le_of_Z 4 (Bytes.Z_of_le c)) (map (np.encode np.uint16) zs)
              = map (np.encode np.int32) zs).
  { rewrite <- list_fmap_compose. apply Forall_fmap_ext.
    eapply Forall_impl; [exact Hv|]. intros z Hz. cbv beta in Hz.
    cbv [compose np.encode np.uint16 np.int32 np.byteorder np.itemsize].
    rewrite (Z_of_le_of_Z 2). f_equal.
    apply Z.mod_small. simpl. lia. }
  rewrite E.
  rewrite pil_to_ndarray_I.
  2:{ change (concat _) with (np.tostring (np.Array [h; w] np.int32 zs)).
      rewrite length_tostring. simpl. lia. }
  do 3 f_equal.
  apply (decode_chunks_tostring np.int32); [lia|].
  eapply Forall_impl; [exact Hv|]. intros z Hz. simpl in Hz.
  apply decode_encode_signed; [reflexivity|].
  change (2 ^ (8 * Z.of_nat (np.itemsize np.int32)) / 2)%Z with 2147483648%Z. lia.
Qed.

(** What [ndarray_to_pil] makes of an array of unsigned values that is
    2-D once squeezed. *)
Lemma unsigned_image (A : np.ndarray) (h w : nat) (format_str : option string) :
  np.shape (np.squeeze A) = [h; w] →
  length (np.data A) = h * w → 0 < h * w →
  np.kind (np.dtype A) ≠ np.kind_f →
  Forall (fun z => 0 <= z < 65536)%Z (np.data A) →
  ndarray_to_pil A format_str =
    if forallb (fun z => z <? 256)%Z (np.data A)
    then pack (np.Array [h; w] np.uint8 (np.data A)) "L" "L"
    else pack (np.Array [h; w] np.uint16 (np.data A)) "I;16" "I".
Proof.
  intros Hs Hlen Hpos Hk Hv.
  assert (Hne : np.data (np.squeeze A) ≠ []).
  { cbn. intros E. rewrite E in Hlen. cbn in Hlen. lia. }
  assert (Hn : np.ndim (np.squeeze A) = 2) by (unfold np.ndim; now rewrite Hs).
  destruct (max_bounds _ Hne) as (mx & Emx & Hmxin & Hmx).
  destruct (min_bounds _ Hne) as (mn & Emn & Hmnin & Hmn).
  cbn [np.squeeze np.data] in Hmxin, Hmx, Hmnin, Hmn.
  rewrite Forall_forall in Hv.
  pose proof (Hv _ Hmxin) as Hmxr. pose proof (Hv _ Hmnin) as Hmnr.
  assert (Hsq : np.squeeze A = np.Array [h; w] (np.dtype A) (np.data A)).
  { unfold np.squeeze in *. cbn [np.shape] in Hs. now rewrite Hs. }
  destruct (forallb (λ z : Z, (z <? 256)%Z) (np.data A)) eqn:Hall.
  - assert (Hmx8 : (mx < 256)%Z).
    { rewrite forallb_forall in Hall. apply Z.ltb_lt, Hall.
      now apply list_elem_of_In. }
    rewrite (ndarray_to_pil_8bit _ _ mx mn); try done; try lia.
    rewrite Hsq. rewrite astype_integer; [reflexivity|done|done|].
    cbn [np.data]. apply Forall_forall. intros z Hz.
    specialize (Hv z Hz). specialize (Hmx z Hz).
    cbv beta in Hv. unfold np.wrap. simpl. apply Z.mod_small. lia.
  - rewrite (ndarray_to_pil_16bit _ _ mx mn); try done; try lia.
    + rewrite Hsq. rewrite astype_integer; [reflexivity|done|done|].
      cbn [np.data]. apply Forall_forall. intros z Hz. specialize (Hv z Hz).
      cbv beta in Hv. unfold np.wrap. simpl. apply Z.mod_small. lia.
    + split; [|change (2 ^ 16)%Z with 65536%Z; lia].
      destruct (Z.le_gt_cases 256 mx) as [|Hlt]; [done|]. exfalso.
      apply Bool.not_true_iff_false in Hall. apply Hall.
      apply forallb_forall. intros z Hz. apply Z.ltb_lt.
      apply list_elem_of_In in Hz. specialize (Hmx z Hz). lia.
Qed.

Lemma unsigned_roundtrip_aux (A : np.ndarray) (h w : nat)
    (format_str : option string) (world : PIL.world) :
  np.shape (np.squeeze A) = [h; w] →
  length (np.data A) = h * w → 0 < h * w →
  np.kind (np.dtype A) ≠ np.kind_f →
  Forall (fun z => 0 <= z < 65536)%Z (np.data A) →
  ∃ im,
    ndarray_to_pil A format_str = Ok im ∧
    PIL.size im = (w, h) ∧
    PIL.mode im = (if forallb (fun z => z <? 256)%Z (np.data A)
                   then "L" else "I")%string ∧
    pil_to_ndarray im None world =
      (Ok (np.Array [h; w]
             (if forallb (fun z => z <? 256)%Z (np.data A)
              then np.uint8 else np.int32)
             (np.data A)), world).
Proof.
  intros Hs Hlen Hpos Hk Hv.
  rewrite (unsigned_image A h w format_str Hs Hlen Hpos Hk Hv).
  destruct (forallb (λ z : Z, (z <? 256)%Z) (np.data A)) eqn:Hall.
  - assert (Hv8 : Forall (fun z => 0 <= z < 256)%Z (np.data A)).
    { rewrite Forall_forall in *. intros z Hz. specialize (Hv z Hz).
      rewrite forallb_forall in Hall.
      pose proof (Hall z (proj1 (list_elem_of_In _ _) Hz)) as Hlt.
      apply Z.ltb_lt in Hlt. lia. }
    destruct (read_back_8bit h w (np.data A) world Hlen Hv8)
      as (im & Hp & Hm & Hsz & Hr).
    exists im. done.
  - destruct (read_back_16bit h w (np.data A) world Hlen Hv)
      as (im & Hp & Hm & Hsz & Hr).
    exists im. done.
Qed.

(** X5: for an array of non-floating kind that is 2-D once squeezed,
    not empty and with all values in [0, 65536), [ndarray_to_pil]
    returns an image of size (w, h), of mode ['L'] when every value is
    below 256 and of mode ['I'] otherwise, and [pil_to_ndarray] reads
    from it the squeezed shape and the values of the array (as uint8,
    respectively int32), leaving the state untouched. *)
Theorem roundtrip_unsigned (A : np.ndarray) (h w : nat)
    (format_str : option string) (world : PIL.world) :
  np.shape (np.squeeze A) = [h; w] →
  length (np.data A) = h * w → 0 < h * w →
  np.kind (np.dtype A) ≠ np.kind_f →
  Forall (fun z => 0 <= z < 65536)%Z (np.data A) →
  ∃ im,
    ndarray_to_pil A format_str = Ok im ∧
    PIL.size im = (w, h) ∧
    PIL.mode im = (if forallb (fun z => z <? 256)%Z (np.data A)
                   then "L" else "I")%string ∧
    pil_to_ndarray im None world =
      (Ok (np.Array [h; w]
             (if forallb (fun z => z <? 256)%Z (np.data A)
              then np.uint8 else np.int32)
             (np.data A)), world).
Proof. apply unsigned_roundtrip_aux. Qed.

(** X1: [ndarray_to_pil] sees its input only through the squeeze: an
    array and its squeezed form give the same result. *)
Theorem squeezed_input_same_image (arr : np.ndarray) (format_str : option string) :
  ndarray_to_pil (np.squeeze arr) format_str = ndarray_to_pil arr format_str.
Proof. unfold ndarray_to_pil. now rewrite squeeze_squeeze. Qed.

(** X2: when the squeezed array has rank 0, or rank 4 or more, the
    shape error cannot be formatted (the shape tuple is the argument
    list of [%]) and [ndarray_to_pil] raises [TypeError]. *)
Theorem unformattable_shape_raises_TypeError (arr : np.ndarray)
    (format_str : option string) :
  np.ndim (np.squeeze arr) = 0 ∨ 4 ≤ np.ndim (np.squeeze arr) →
  ndarray_to_pil arr format_str =
    Raise (TypeError
             (if decide (np.ndim (np.squeeze arr) = 0)
              then "not enough arguments for format string"
              else "not all arguments converted during string formatting")).
Proof.
  intros Hn. unfold ndarray_to_pil, np.ndim in *.
  destruct (np.squeeze arr) as [s d zs]. cbn [np.shape] in *.
  destruct s as [|a [|b [|c [|e s]]]]; cbn [length] in Hn; try lia.
  - reflexivity.
  - reflexivity.
Qed.

(** X3: an array of non-floating kind that is 2-D once squeezed and has
    no element is rejected by [arr.max()] with [ValueError]. *)
Theorem empty_image_raises (arr : np.ndarray) (format_str : option string) :
  np.ndim (np.squeeze arr) = 2 →
  np.kind (np.dtype arr) ≠ np.kind_f →
  np.data arr = [] →
  ∃ msg, ndarray_to_pil arr format_str = Raise (ValueError msg).
Proof.
  intros Hn Hk Hd. unfold ndarray_to_pil. rewrite Hn.
  cbn [np.squeeze np.dtype]. rewrite (bool_decide_eq_false_2 _ Hk).
  unfold np.max, np.squeeze. cbn [np.data]. rewrite Hd.
  eexists. reflexivity.
Qed.

(** An ['I'] image cannot be filled in raw mode ['I'] from an array of
    two-byte elements: there are too few bytes. *)
Lemma pack_I_too_short (a : np.ndarray) (h w : nat) :
  np.shape a = [h; w] → length (np.data a) = h * w → 0 < h * w →
  np.itemsize (np.dtype a) = 2 →
  ∃ msg, pack a "I" "I" = Raise (ValueError msg).
Proof.
  intros Hs Hlen Hpos Hisz. unfold pack, np.T_shape. rewrite Hs.
  cbn. unfold PIL.fromstring. cbn. rewrite length_tostring, Hlen, Hisz.
  destruct (decide (w * h * 4 ≤ h * w * 2)) as [Hle|_]; [nia|].
  eexists. reflexivity.
Qed.

(** X4: an array of non-floating kind that is 2-D once squeezed and
    holds a negative value or a value of 65536 or more takes the last
    branch: the call is [img_as_int] followed by the filling of a new
    ['I'] image in raw mode ['I'].  When [img_as_int] returns two-byte
    elements (int16) for a 2-D array that is not empty, the filling has
    too few bytes and the call raises [ValueError]: no image comes
    out. *)
Theorem out_of_range_takes_last_branch (arr : np.ndarray)
    (format_str : option string) (z : Z) :
  np.ndim (np.squeeze arr) = 2 →
  np.kind (np.dtype arr) ≠ np.kind_f →
  z ∈ np.data arr → (z < 0 ∨ 65536 <= z)%Z →
  ndarray_to_pil arr format_str =
    (a ← img_as_int (np.squeeze arr); pack a "I" "I")
  ∧ ∀ a h w,
      img_as_int (np.squeeze arr) = Ok a →
      np.shape a = [h; w] → length (np.data a) = h * w → 0 < h * w →
      np.itemsize (np.dtype a) = 2 →
      ∃ msg, ndarray_to_pil arr format_str = Raise (ValueError msg).
Proof.
  intros Hn Hk Hz Hrange.
  assert (Hbranch : ndarray_to_pil arr format_str =
                      (a ← img_as_int (np.squeeze arr); pack a "I" "I")).
  { assert (Hne : np.data (np.squeeze arr) ≠ []).
    { cbn. intros E. rewrite E in Hz. now apply elem_of_nil in Hz. }
    destruct (max_bounds _ Hne) as (mx & Emx & _ & Hmx).
    destruct (min_bounds _ Hne) as (mn & Emn & _ & Hmn).
    specialize (Hmx z Hz). specialize (Hmn z Hz).
    unfold ndarray_to_pil, pack. rewrite Hn, Emx, Emn.
    cbn [np.squeeze np.dtype]. rewrite (bool_decide_eq_false_2 _ Hk).
    cbn -[np_astype PIL.new PIL.fromstring np.tostring Z.pow img_as_int].
    change (2 ^ 16)%Z with 65536%Z.
    destruct (Z.ltb_spec mx 256), (Z.ltb_spec mx 65536), (Z.leb_spec 0 mn);
      try lia; cbn -[np_astype PIL.new PIL.fromstring np.tostring img_as_int];
      destruct (img_as_int _); reflexivity. }
  split; [exact Hbranch|].
  intros a h w Ha Hs Hlen Hpos Hisz. rewrite Hbranch, Ha.
  exact (pack_I_too_short a h w Hs Hlen Hpos Hisz).
Qed.

(** X6: [pil_to_ndarray] leaves the files and the recorded [save] calls
    as they are, opens no handle, and changes the state of no handle
    other than the image's own [fp]; when it raises, the state is
    exactly the one it started from. *)
Theorem only_own_handle_touched (im : PIL.Image) (dtype : option np.dtype_t)
    (w w' : PIL.world) (r : result np.ndarray) :
  pil_to_ndarray im dtype w = (r, w') →
  PIL.files w' = PIL.files w ∧ PIL.save_calls w' = PIL.save_calls w
  ∧ PIL.open_handles w' ⊆ PIL.open_handles w
  ∧ (∀ h, PIL.fp im ≠ Some (Some h) →
          (h ∈ PIL.open_handles w' ↔ h ∈ PIL.open_handles w))
  ∧ (∀ e, r = Raise e → w' = w).
Proof.
  destruct (pil_to_ndarray_outcome im dtype w) as [[a|e] ->].
  - intros [= <- <-]. destruct (PIL.fp im) as [[h0|]|]; cbn;
      (split; [reflexivity|]); (split; [reflexivity|]);
      (split; [intros x Hx; try apply elem_of_difference in Hx; tauto|]);
      (split; [|discriminate]); intros h Hh; [|done..].
    rewrite elem_of_difference, elem_of_singleton.
    split; [tauto|]. intros Hin. split; [exact Hin|]. congruence.
  - intros [= <- <-]. done.
Qed.

(** X7: for a 16-bit mode the caller's [dtype] is overwritten: the
    result does not depend on it. *)
Theorem I16_ignores_dtype_override (im : PIL.Image) (d1 d2 : option np.dtype_t)
    (w : PIL.world) :
  Str.startswith (PIL.mode im) "I;16" = true →
  pil_to_ndarray im d1 w = pil_to_ndarray im d2 w.
Proof.
  intros Hm. destruct (startswith_I16 _ Hm) as [HP H1].
  unfold pil_to_ndarray. rewrite HP, H1, Hm. reflexivity.
Qed.

(** X8: a palette image with a 256-row palette is read through
    [convert('L')] when every palette row in [start, stop) is gray, and
    through [convert('RGB')] when one of these rows is not. *)
Theorem palette_image_conversion (im : PIL.Image) (dtype : option np.dtype_t)
    (w : PIL.world) (pal : list Z) (start stop : nat) (bs : list byte) :
  PIL.mode im = "P"%string → PIL.pixels im = Ok bs →
  PIL.palette im = Some pal → length pal = 768 →
  PIL.extrema im = (start, stop) →
  ((∀ i, start ≤ i < stop → i < 256 → gray_row pal i) →
   pil_to_ndarray im dtype w = read_converted im "L" dtype w)
  ∧ ((∃ i, start ≤ i < stop ∧ i < 256 ∧ ¬ gray_row pal i) →
     pil_to_ndarray im dtype w = read_converted im "RGB" dtype w).
Proof.
  intros Hm Hp Hpal Hlen Hext.
  destruct (palette_is_grayscale_spec im pal start stop bs Hm Hp Hpal Hlen Hext)
    as (b & Hb & Hiff).
  assert (Hrun : pil_to_ndarray im dtype w =
                 read_converted im (if b then "L" else "RGB") dtype w).
  { unfold pil_to_ndarray, read_converted. rewrite Hm. cbn [String.eqb Ascii.eqb].
    change ("P" =? "P")%string with true. cbv iota. rewrite Hb.
    unfold mbind at 4. unfold result_bind at 1.
    unfold mbind, PIL.IO_bind, PIL.bind, PIL.lift.
    destruct b; destruct (Image_convert im _) as [im'|e]; cbn;
      try reflexivity;
      destruct (np_array (inl im') dtype); try reflexivity;
      destruct (PIL.fp im) as [[h|]|]; reflexivity. }
  split.
  - intros Hall. apply Hiff in Hall. now rewrite Hrun, Hall.
  - intros (i & Hi & H256 & Hng). rewrite Hrun.
    destruct b; [|reflexivity]. exfalso. apply Hng.
    apply (proj1 Hiff eq_refl); assumption.
Qed.

(** X9: a palette that does not have 768 entries cannot be reshaped to
    256 rows: [_palette_is_grayscale] raises [ValueError]. *)
Theorem palette_of_wrong_length_rejected (im : PIL.Image) (pal : list Z)
    (bs : list byte) :
  PIL.mode im = "P"%string → PIL.pixels im = Ok bs →
  PIL.palette im = Some pal → length pal ≠ 768 →
  ∃ msg, _palette_is_grayscale im = Raise (ValueError msg).
Proof.
  intros Hm Hp Hpal Hlen.
  unfold _palette_is_grayscale, PIL.getpalette, PIL.load.
  rewrite Hm, Hp, Hpal. cbn. unfold np.reshape. cbn.
  destruct (decide (768 = length pal)); [congruence|].
  eexists. reflexivity.
Qed.

(** X10: an ['L'] image is read as an array of shape (h, w), an ['RGB']
    image as an array of shape (h, w, 3), of uint8 elements that are
    the bytes of the buffer in order. *)
Theorem plain_8bit_image_read_verbatim (im : PIL.Image) (world : PIL.world)
    (bs : list byte) (w h : nat) :
  PIL.size im = (w, h) → PIL.pixels im = Ok bs →
  (PIL.mode im = "L"%string ∧ length bs = h * w
   ∨ PIL.mode im = "RGB"%string ∧ length bs = h * w * 3) →
  ∃ world',
    pil_to_ndarray im None world =
      (Ok (np.Array (if (PIL.mode im =? "L")%string then [h; w] else [h; w; 3])
             np.uint8 (map Bytes.Z_of_byte bs)), world').
Proof.
  intros Hsz Hpx Hmode.
  exists (match PIL.fp im with
          | Some (Some h0) =>
              PIL.World (PIL.files world) (PIL.open_handles world ∖ {[h0]})
                (PIL.save_calls world)
          | _ => world
          end).
  unfold pil_to_ndarray, mbind, PIL.IO_bind, PIL.bind, PIL.lift, np_array,
    PIL.array_interface, PIL._conv_type_shape, PIL.tostring.
  destruct Hmode as [[Hm Hlen]|[Hm Hlen]]; rewrite Hm; cbn;
    rewrite ?Hm, ?Hsz, ?Hpx; cbn -[np.decode Bytes.chunks np.prod];
    unfold np.frombuffer; cbn -[np.decode Bytes.chunks np.prod].
  - assert (E : np.prod [h; w] = length bs) by (cbn; lia). rewrite E.
    destruct (decide (length bs * 1 ≤ length bs)) as [_|?]; [|lia].
    rewrite decode_uint8_chunks.
    destruct (PIL.fp im) as [[h0|]|]; reflexivity.
  - assert (E : np.prod [h; w; 3] = length bs) by (cbn; lia). rewrite E.
    destruct (decide (length bs * 1 ≤ length bs)) as [_|?]; [|lia].
    rewrite decode_uint8_chunks.
    destruct (PIL.fp im) as [[h0|]|]; reflexivity.
Qed.

(** X11: an exception raised by [Image.open] leaves [imread] as it is;
    it is not turned into the "Could not load" [ValueError]. *)
Theorem imread_open_failure_propagates (fname : string)
    (dtype : option np.dtype_t) (w w' : PIL.world) (e : exn) :
  PIL.open fname w = (Raise e, w') →
  imread fname dtype w = (Raise e, w').
Proof.
  intros Hopen. unfold imread, mbind, PIL.IO_bind, PIL.bind.
  now rewrite Hopen.
Qed.

(** X12: when the file opens and its pixel data can be read (and there
    is a first pixel), [imread] is [pil_to_ndarray] on the opened image
    with the same [dtype]. *)
Theorem imread_readable (fname : string) (dtype : option np.dtype_t)
    (w w' : PIL.world) (im : PIL.Image) (b : byte) (bs : list byte) :
  PIL.open fname w = (Ok im, w') →
  PIL.pixels im = Ok (b :: bs) →
  imread fname dtype w = pil_to_ndarray im dtype w'.
Proof.
  intros Hopen Hpx. unfold imread, mbind, PIL.IO_bind, PIL.bind.
  rewrite Hopen. unfold PIL.try_except_IOError_else, PIL.lift, PIL.getdata.
  now rewrite Hpx.
Qed.

Lemma rejected_shape_raises (arr : np.ndarray) (format_str : option string) :
  unsupported_shape (np.shape (np.squeeze arr)) →
  ∃ e, ndarray_to_pil arr format_str = Raise e.
Proof.
  intros Hs. unfold ndarray_to_pil, np.ndim.
  destruct (np.squeeze arr) as [s d zs]. cbn [np.shape] in *.
  destruct s as [|a [|b [|c [|e s]]]]; cbn [length] in Hs.
  - eexists; reflexivity.
  - eexists; reflexivity.
  - exfalso. destruct Hs as [Hs|[Hs _]]; [|discriminate].
    apply Hs. apply elem_of_cons. now left.
  - destruct Hs as [Hs|[_ Hc]].
    + exfalso. apply Hs. apply elem_of_cons. right. apply elem_of_cons. now left.
    + cbn in Hc. cbn -[list_elem_of_dec].
      rewrite (bool_decide_eq_false_2 _ Hc). eexists; reflexivity.
  - eexists; reflexivity.
Qed.

(** X14: for an array whose squeezed shape is not supported, [imsave]
    raises and the state, in particular the recorded [save] calls, is
    unchanged. *)
Theorem imsave_rejected_shape_saves_nothing (fname : PIL.dest)
    (arr : np.ndarray) (format_str : option string) (w : PIL.world) :
  unsupported_shape (np.shape (np.squeeze arr)) →
  ∃ e, imsave fname arr format_str w = (Raise e, w).
Proof.
  intros Hs. destruct (rejected_shape_raises arr None Hs) as [e He].
  exists e. unfold imsave, mbind, PIL.IO_bind, PIL.bind, PIL.lift.
  now rewrite He.
Qed.

(** X13: for an array as in X5, [imsave] calls [save] exactly once, with
    the destination, the image of [ndarray_to_pil] (mode ['L'] or ['I'],
    size (w, h)) and the format, which is ['PNG'] when the destination
    is a file object and no format was given, and the given format
    otherwise; [imsave] ends as that call ends. *)
Theorem imsave_records_one_call (fname : PIL.dest) (A : np.ndarray)
    (h w : nat) (format_str : option string) (world : PIL.world) :
  np.shape (np.squeeze A) = [h; w] →
  length (np.data A) = h * w → 0 < h * w →
  np.kind (np.dtype A) ≠ np.kind_f →
  Forall (fun z => 0 <= z < 65536)%Z (np.data A) →
  ∃ im,
    ndarray_to_pil A format_str = Ok im ∧
    PIL.size im = (w, h) ∧
    PIL.mode im = (if forallb (fun z => z <? 256)%Z (np.data A)
                   then "L" else "I")%string ∧
    imsave fname A format_str world =
      (save_outcome im fname (default_format fname format_str),
       PIL.World (PIL.files world) (PIL.open_handles world)
         (PIL.save_calls world ++ [(fname, im, default_format fname format_str)])).
Proof.
  intros Hs Hlen Hpos Hk Hv.
  destruct (unsigned_roundtrip_aux A h w None world Hs Hlen Hpos Hk Hv)
    as (im & Him & Hsz & Hm & _).
  exists im. split; [exact Him|]. split; [exact Hsz|]. split; [exact Hm|].
  unfold imsave, Image_save, mbind, PIL.IO_bind, PIL.bind, PIL.lift, PIL.save.
  rewrite Him. destruct fname, format_str; reflexivity.
Qed.

End Further.

(** ** Concrete runs of the further properties *)

Lemma unformattable_shape_raises_TypeError_witness :
  (np.ndim (np.squeeze zeros_2x2x2x2) = 0 ∨ 4 ≤ np.ndim (np.squeeze zeros_2x2x2x2))
  ∧ run_ndarray_to_pil zeros_2x2x2x2 None =
      Raise (TypeError
               (if decide (np.ndim (np.squeeze zeros_2x2x2x2) = 0)
                then "not enough arguments for format string"
                else "not all arguments converted during string formatting")).
Proof.
  assert (Hn : np.ndim (np.squeeze zeros_2x2x2x2) = 0
               ∨ 4 ≤ np.ndim (np.squeeze zeros_2x2x2x2)) by (right; vm_compute; lia).
  split; [exact Hn|].
  exact (@unformattable_shape_raises_TypeError sample_collaborators
           zeros_2x2x2x2 None Hn).
Defined.

Lemma empty_image_raises_witness :
  np.ndim (np.squeeze empty_0x3) = 2
  ∧ np.kind (np.dtype empty_0x3) ≠ np.kind_f
  ∧ np.data empty_0x3 = []
  ∧ ∃ msg, run_ndarray_to_pil empty_0x3 None = Raise (ValueError msg).
Proof.
  split; [reflexivity|]. split; [discriminate|]. split; [reflexivity|].
  apply (@empty_image_raises sample_collaborators empty_0x3 None);
    [reflexivity|discriminate|reflexivity].
Defined.

Lemma out_of_range_takes_last_branch_witness :
  np.ndim (np.squeeze signed_2x2) = 2
  ∧ np.kind (np.dtype signed_2x2) ≠ np.kind_f
  ∧ (-1)%Z ∈ np.data signed_2x2
  ∧ ((-1 < 0)%Z ∨ (65536 <= -1)%Z)
  ∧ run_ndarray_to_pil signed_2x2 None =
      (a ← @img_as_int sample_collaborators (np.squeeze signed_2x2);
       pack a "I" "I")
  ∧ ∃ msg, run_ndarray_to_pil signed_2x2 None = Raise (ValueError msg).
Proof.
  assert (Hin : (-1)%Z ∈ np.data signed_2x2) by (apply elem_of_cons; now left).
  split; [reflexivity|]. split; [discriminate|]. split; [exact Hin|].
  split; [left; lia|].
  destruct (@out_of_range_takes_last_branch sample_collaborators signed_2x2
              None (-1)%Z eq_refl ltac:(discriminate) Hin
              ltac:(left; lia)) as [Hbranch Hraise].
  split; [exact Hbranch|].
  apply (Hraise (zeros_like np.int16 (np.squeeze signed_2x2)) 2 2);
    [reflexivity|reflexivity|reflexivity|lia|reflexivity].
Defined.

Lemma roundtrip_unsigned_witness :
  np.shape (np.squeeze mixed_2x3x1) = [2; 3]
  ∧ length (np.data mixed_2x3x1) = 2 * 3 ∧ 0 < 2 * 3
  ∧ np.kind (np.dtype mixed_2x3x1) ≠ np.kind_f
  ∧ Forall (fun z => 0 <= z < 65536)%Z (np.data mixed_2x3x1)
  ∧ ∃ im,
      run_ndarray_to_pil mixed_2x3x1 None = Ok im ∧
      PIL.size im = (3, 2) ∧
      PIL.mode im = (if forallb (fun z => z <? 256)%Z (np.data mixed_2x3x1)
                     then "L" else "I")%string ∧
      run_pil_to_ndarray im None empty_world =
        (Ok (np.Array [2; 3]
               (if forallb (fun z => z <? 256)%Z (np.data mixed_2x3x1)
                then np.uint8 else np.int32)
               (np.data mixed_2x3x1)), empty_world).
Proof.
  assert (Hv : Forall (fun z => 0 <= z < 65536)%Z (np.data mixed_2x3x1))
    by (repeat constructor; lia).
  split; [reflexivity|]. split; [reflexivity|]. split; [lia|].
  split; [discriminate|]. split; [exact Hv|].
  apply (@roundtrip_unsigned sample_collaborators mixed_2x3x1 2 3 None empty_world);
    [reflexivity|reflexivity|lia|discriminate|exact Hv].
Defined.

Lemma only_own_handle_touched_witness :
  run_pil_to_ndarray readable_image None world_with_handle =
    (Ok (np.Array [2; 2] np.uint8 [1; 2; 3; 4]%Z), PIL.World ∅ ({[7]} ∖ {[7]}) [])
  ∧ PIL.files (PIL.World ∅ ({[7]} ∖ {[7]}) []) = PIL.files world_with_handle
  ∧ PIL.save_calls (PIL.World ∅ ({[7]} ∖ {[7]}) [])
    = PIL.save_calls world_with_handle
  ∧ PIL.open_handles (PIL.World ∅ ({[7]} ∖ {[7]}) [])
    ⊆ PIL.open_handles world_with_handle
  ∧ (∀ h, PIL.fp readable_image ≠ Some (Some h) →
          (h ∈ PIL.open_handles (PIL.World ∅ ({[7]} ∖ {[7]}) [])
           ↔ h ∈ PIL.open_handles world_with_handle))
  ∧ (∀ e, Ok (np.Array [2; 2] np.uint8 [1; 2; 3; 4]%Z) = Raise e →
          PIL.World ∅ ({[7]} ∖ {[7]}) [] = world_with_handle).
Proof.
  split; [reflexivity|].
  apply (@only_own_handle_touched sample_collaborators readable_image None
           world_with_handle). reflexivity.
Defined.

Lemma I16_ignores_dtype_override_witness :
  Str.startswith (PIL.mode image_I16B) "I;16" = true
  ∧ run_pil_to_ndarray image_I16B (Some np.float64) empty_world
    = run_pil_to_ndarray image_I16B None empty_world.
Proof.
  split; [reflexivity|].
  apply (@I16_ignores_dtype_override sample_collaborators image_I16B
           (Some np.float64) None empty_world). reflexivity.
Defined.

Lemma palette_image_conversion_witness :
  PIL.mode (palette_image sample_palette) = "P"%string
  ∧ PIL.pixels (palette_image sample_palette) = Ok [x0a; x14; x0c; x0d]
  ∧ PIL.palette (palette_image sample_palette) = Some sample_palette
  ∧ length sample_palette = 768
  ∧ PIL.extrema (palette_image sample_palette) = (10, 20)
  ∧ ((∀ i, 10 ≤ i < 20 → i < 256 → gray_row sample_palette i) →
     run_pil_to_ndarray (palette_image sample_palette) None empty_world
     = @read_converted sample_collaborators (palette_image sample_palette)
         "L" None empty_world)
  ∧ ((∃ i, 10 ≤ i < 20 ∧ i < 256 ∧ ¬ gray_row sample_palette i) →
     run_pil_to_ndarray (palette_image sample_palette) None empty_world
     = @read_converted sample_collaborators (palette_image sample_palette)
         "RGB" None empty_world).
Proof.
  repeat (split; [reflexivity|]).
  apply (@palette_image_conversion sample_collaborators
           (palette_image sample_palette) None empty_world sample_palette
           10 20 [x0a; x14; x0c; x0d]); reflexivity.
Defined.

Lemma palette_of_wrong_length_rejected_witness :
  PIL.mode (palette_image (replicate 6 0%Z)) = "P"%string
  ∧ PIL.pixels (palette_image (replicate 6 0%Z)) = Ok [x0a; x14; x0c; x0d]
  ∧ PIL.palette (palette_image (replicate 6 0%Z)) = Some (replicate 6 0%Z)
  ∧ length (replicate 6 0%Z) ≠ 768
  ∧ ∃ msg, _palette_is_grayscale (palette_image (replicate 6 0%Z)) =
             Raise (ValueError msg).
Proof.
  repeat (split; [reflexivity|]). split; [discriminate|].
  apply (palette_of_wrong_length_rejected (palette_image (replicate 6 0%Z))
           (replicate 6 0%Z) [x0a; x14; x0c; x0d]);
    [reflexivity|reflexivity|reflexivity|discriminate].
Defined.

Lemma plain_8bit_image_read_verbatim_witness :
  PIL.size image_RGB = (2, 1)
  ∧ PIL.pixels image_RGB = Ok [x01; x02; x03; x04; x05; x06]
  ∧ (PIL.mode image_RGB = "L"%string ∧ length [x01; x02; x03; x04; x05; x06] = 1 * 2
     ∨ PIL.mode image_RGB = "RGB"%string
       ∧ length [x01; x02; x03; x04; x05; x06] = 1 * 2 * 3)
  ∧ ∃ world',
      run_pil_to_ndarray image_RGB None empty_world =
        (Ok (np.Array (if (PIL.mode image_RGB =? "L")%string
                       then [1; 2] else [1; 2; 3])
               np.uint8 (map Bytes.Z_of_byte [x01; x02; x03; x04; x05; x06])),
         world').
Proof.
  assert (Hm : PIL.mode image_RGB = "L"%string
               ∧ length [x01; x02; x03; x04; x05; x06] = 1 * 2
               ∨ PIL.mode image_RGB = "RGB"%string
                 ∧ length [x01; x02; x03; x04; x05; x06] = 1 * 2 * 3)
    by (right; split; reflexivity).
  split; [reflexivity|]. split; [reflexivity|]. split; [exact Hm|].
  exact (@plain_8bit_image_read_verbatim sample_collaborators image_RGB
           empty_world [x01; x02; x03; x04; x05; x06] 2 1 eq_refl eq_refl Hm).
Defined.

Lemma imread_open_failure_propagates_witness :
  PIL.open "missing.png" world_with_file
    = (Raise (IOError "cannot identify image file"), world_with_file)
  ∧ run_imread "missing.png" None world_with_file
    = (Raise (IOError "cannot identify image file"), world_with_file).
Proof.
  assert (Hopen : PIL.open "missing.png" world_with_file
                  = (Raise (IOError "cannot identify image file"), world_with_file)).
  { unfold PIL.open, world_with_file. cbn [PIL.files].
    rewrite lookup_singleton_ne by discriminate. reflexivity. }
  split; [exact Hopen|].
  exact (@imread_open_failure_propagates sample_collaborators "missing.png"
           None world_with_file world_with_file _ Hopen).
Defined.

Lemma imread_readable_witness :
  PIL.open "ok.png" world_with_readable_file
    = (Ok opened_readable_file, world_after_open_readable)
  ∧ PIL.pixels opened_readable_file = Ok [x01; x02; x03; x04]
  ∧ run_imread "ok.png" None world_with_readable_file
    = run_pil_to_ndarray opened_readable_file None world_after_open_readable.
Proof.
  assert (Hopen : PIL.open "ok.png" world_with_readable_file
                  = (Ok opened_readable_file, world_after_open_readable)).
  { unfold PIL.open, world_with_readable_file.
    cbn [PIL.files PIL.open_handles PIL.save_calls].
    rewrite lookup_singleton_eq. reflexivity. }
  split; [exact Hopen|]. split; [reflexivity|].
  exact (@imread_readable sample_collaborators "ok.png" None
           world_with_readable_file world_after_open_readable
           opened_readable_file x01 [x02; x03; x04] Hopen eq_refl).
Defined.

Lemma imsave_records_one_call_witness :
  np.shape (np.squeeze mixed_2x3x1) = [2; 3]
  ∧ length (np.data mixed_2x3x1) = 2 * 3 ∧ 0 < 2 * 3
  ∧ np.kind (np.dtype mixed_2x3x1) ≠ np.kind_f
  ∧ Forall (fun z => 0 <= z < 65536)%Z (np.data mixed_2x3x1)
  ∧ ∃ im,
      run_ndarray_to_pil mixed_2x3x1 None = Ok im ∧
      PIL.size im = (3, 2) ∧
      PIL.mode im = (if forallb (fun z => z <? 256)%Z (np.data mixed_2x3x1)
                     then "L" else "I")%string ∧
      @imsave sample_collaborators (PIL.FileObject 0) mixed_2x3x1 None empty_world =
        (@save_outcome sample_collaborators im (PIL.FileObject 0)
           (default_format (PIL.FileObject 0) None),
         PIL.World (PIL.files empty_world) (PIL.open_handles empty_world)
           (PIL.save_calls empty_world
            ++ [(PIL.FileObject 0, im, default_format (PIL.FileObject 0) None)])).
Proof.
  assert (Hv : Forall (fun z => 0 <= z < 65536)%Z (np.data mixed_2x3x1))
    by (repeat constructor; lia).
  split; [reflexivity|]. split; [reflexivity|]. split; [lia|].
  split; [discriminate|]. split; [exact Hv|].
  apply (@imsave_records_one_call sample_collaborators (PIL.FileObject 0)
           mixed_2x3x1 2 3 None empty_world);
    [reflexivity|reflexivity|lia|discriminate|exact Hv].
Defined.

Lemma unsupported_zeros_2x2x2 :
  unsupported_shape (np.shape (np.squeeze zeros_2x2x2)).
Proof.
  right. split; [reflexivity|]. cbn.
  intros Hin. repeat (apply elem_of_cons in Hin as [Hin|Hin]; [discriminate|]).
  now apply elem_of_nil in Hin.
Qed.

Lemma imsave_rejected_shape_saves_nothing_witness :
  unsupported_shape (np.shape (np.squeeze zeros_2x2x2))
  ∧ ∃ e, @imsave sample_collaborators (PIL.Path "out.png") zeros_2x2x2 None
           empty_world = (Raise e, empty_world).
Proof.
  split; [exact unsupported_zeros_2x2x2|].
  exact (@imsave_rejected_shape_saves_nothing sample_collaborators
           (PIL.Path "out.png") zeros_2x2x2 None empty_world
           unsupported_zeros_2x2x2).
Defined.

(** When the encoder refuses the image, [imsave] raises after the call
    was made. *)
Example imsave_encoder_failure :
  (@imsave sample_collaborators (PIL.Path "out.jpg") wide_2x3 (Some "JPEG"%string)
     empty_world).1 = Raise (IOError "cannot write mode I as JPEG").
Proof. reflexivity. Qed.
